(** * Book manager: a shallow embedding of the request handlers

    The development follows the layout of the repository:
    - [Json]     the JSON values that travel in request and response bodies;
    - [Py]       the few Python builtins the handlers rely on ([repr], [str]);
    - [Schemas]  [schemas.py], the marshmallow [BookSchema];
    - [Models]   [models.py], the [Book] table, [Book.search], ordering and
                 pagination of a query;
    - [Errors]   [errors.py], [ValidationError] and its translator;
    - [Caching]  the response cache the handlers are decorated with;
    - [App]      [app.py], the view functions and the application state;
    - [RoutesV1] [api/v1/routes.py], where it differs from [app.py];
    - [Spec]     the notions the properties are stated with;
    - [Samples]  small stores and requests the properties are tried on.

    Strings are [string]s of 8-bit characters; a character of the model is a
    character of the program (the model is exact on ASCII text).

    The libraries the handlers call are modelled by what they do for the
    calls made here: marshmallow's [Schema.validate] and [Schema.dump],
    SQLAlchemy's queries on the one table (with SQLite's LIKE and row
    numbering, the database of the default configuration), Flask-SQLAlchemy's
    [paginate] and [get_or_404], and Flask-Caching's [cached] over an
    in-memory cache.  The LIMIT and OFFSET of a page and the ids of a bulk
    delete are bound as 64-bit integers, and the query raises when one
    does not fit.  What reaches the client for a raised error depends on
    the configuration of [config.py], see [App.dispatch].  The rate limiter
    is left out: the requests of the model are the ones it lets through. *)

From Stdlib Require Import ZArith List String Ascii Bool Lia Permutation Sorted.
From stdpp Require Import base gmap strings pretty.
Import ListNotations.

#[local] Set Warnings "-register-all".
#[local] Arguments String.append : simpl nomatch.

Local Open Scope string_scope.
Local Open Scope Z_scope.

(* ===================================================================== *)
(** ** JSON values *)
(* ===================================================================== *)

Module Json.

(** A JSON document as [request.get_json()] returns it and as a view
    function returns it: [None], [bool], [int], [float] (kept as mantissa
    and exponent, never inspected), [str], [list] and [dict].  A dict is an
    association list in insertion order; the first binding of a key is the
    one that counts. *)
Inductive json : Type :=
| JNull
| JBool (b : bool)
| JInt (n : Z)
| JFloat (mantissa exponent : Z)
| JStr (s : string)
| JList (items : list json)
| JDict (entries : list (string * json)).

(** [d.get(key)] on the entries of a dict; [None] stands for a missing key. *)
Fixpoint dict_get (entries : list (string * json)) (key : string) : option json :=
  match entries with
  | [] => None
  | (k, v) :: rest => if String.eqb k key then Some v else dict_get rest key
  end.

Definition dict_keys (entries : list (string * json)) : list string :=
  map fst entries.

(** Member access on a JSON value that is expected to be an object. *)
Definition member (v : json) (key : string) : option json :=
  match v with
  | JDict entries => dict_get entries key
  | _ => None
  end.

Definition of_option_str (o : option string) : json :=
  match o with
  | Some s => JStr s
  | None => JNull
  end.

Definition of_option_int (o : option Z) : json :=
  match o with
  | Some n => JInt n
  | None => JNull
  end.

End Json.
Import Json.

(* ===================================================================== *)
(** ** Python builtins used by the handlers *)
(* ===================================================================== *)

Module Py.

Definition hex_digit (n : N) : ascii :=
  ascii_of_N (if (n <? 10)%N then 48 + n else 87 + n)%N.

Fixpoint contains_char (c : ascii) (s : string) : bool :=
  match s with
  | EmptyString => false
  | String d rest => Ascii.eqb c d || contains_char c rest
  end.

(** The quote [repr] picks for a [str]: a single quote, unless the text holds
    a single quote and no double quote. *)
Definition double_quote : ascii := ascii_of_N 34.

Definition repr_quote (s : string) : ascii :=
  if contains_char "'" s && negb (contains_char double_quote s) then double_quote else "'"%char.

Definition repr_char (quote c : ascii) : string :=
  let n := N_of_ascii c in
  if Ascii.eqb c quote || Ascii.eqb c "\" then String "\" (String c "")
  else if (n =? 10)%N then "\n"
  else if (n =? 13)%N then "\r"
  else if (n =? 9)%N then "\t"
  else if (n <? 32)%N || (n =? 127)%N
       then String "\" (String "x" (String (hex_digit (n / 16)) (String (hex_digit (n mod 16)) "")))
  else String c "".

Fixpoint repr_body (quote : ascii) (s : string) : string :=
  match s with
  | EmptyString => ""
  | String c rest => repr_char quote c ++ repr_body quote rest
  end.

(** [repr(s)] for a [str]. *)
Definition repr (s : string) : string :=
  let q := repr_quote s in
  String q (repr_body q s ++ String q "").

Fixpoint join (sep : string) (parts : list string) : string :=
  match parts with
  | [] => ""
  | [p] => p
  | p :: rest => p ++ sep ++ join sep rest
  end.

(** [str(l)] for a list of [str]. *)
Definition str_list (l : list string) : string :=
  "[" ++ join ", " (map repr l) ++ "]".

(** [str(d)] for a dict from [str] to lists of [str], the shape of the
    error dict of a schema. *)
Definition str_errors (d : list (string * list string)) : string :=
  "{" ++ join ", " (map (fun kv => repr (fst kv) ++ ": " ++ str_list (snd kv)) d) ++ "}".

(** [str(t)] for a tuple of pairs of [str]: [()], [(('a', '1'),)],
    [(('a', '1'), ('b', '2'))]. *)
Definition str_pairs (t : list (string * string)) : string :=
  let pair kv := "(" ++ repr (fst kv) ++ ", " ++ repr (snd kv) ++ ")" in
  match t with
  | [] => "()"
  | [kv] => "(" ++ pair kv ++ ",)"
  | _ => "(" ++ join ", " (map pair t) ++ ")"
  end.

Fixpoint insert_sorted {A : Type} (leb : A -> A -> bool) (x : A) (l : list A) : list A :=
  match l with
  | [] => [x]
  | y :: rest => if leb x y then x :: l else y :: insert_sorted leb x rest
  end.

(** [sorted(l)]: a stable sort, here by insertion from the right. *)
Definition sorted {A : Type} (leb : A -> A -> bool) (l : list A) : list A :=
  fold_right (insert_sorted leb) [] l.

(** Order of pairs of [str], as Python compares tuples. *)
Definition pair_leb (x y : string * string) : bool :=
  match String.compare (fst x) (fst y) with
  | Lt => true
  | Gt => false
  | Eq => match String.compare (snd x) (snd y) with
          | Gt => false
          | _ => true
          end
  end.

(** [str(n)] and the [{n}] of an f-string for an [int]. *)
Definition str_int (n : Z) : string := pretty n.

End Py.

(* ===================================================================== *)
(** ** schemas.py *)
(* ===================================================================== *)

Module Schemas.

(** The error dict of a schema: field name to messages, the value
    [Schema.validate] returns.  The empty dict is Python's falsy value. *)
Definition errors := list (string * list string).

(** A validator returns the messages of the [ValidationError] it raises,
    none when the value passes. *)
Definition validator := string -> list string.

(** [validate.Length(min=1, max=100)]. *)
Definition Length (min max : nat) (message : string) : validator :=
  fun value =>
    let n := String.length value in
    if (n <? min)%nat || (max <? n)%nat then [message] else [].

Definition is_digit (c : ascii) : bool :=
  let n := N_of_ascii c in (48 <=? n)%N && (n <=? 57)%N.

(** [re.match(r'^\d{4}-\d{2}-\d{2}$', value)]: four digits, a dash, two
    digits, a dash, two digits; [$] matches at the end of the text and also
    just before a newline that ends it. *)
Definition date_regex_match (value : string) : bool :=
  match value with
  | String y1 (String y2 (String y3 (String y4 (String "-"
      (String m1 (String m2 (String "-" (String d1 (String d2 rest))))))))) =>
      forallb is_digit [y1; y2; y3; y4; m1; m2; d1; d2]
      && (String.eqb rest "" || String.eqb rest (String (ascii_of_N 10) ""))
  | _ => false
  end.

(** [validate.Regexp(r'^\d{4}-\d{2}-\d{2}$')]. *)
Definition Regexp_date : validator :=
  fun value =>
    if date_regex_match value then [] else ["String does not match expected pattern."].

(** A [fields.Str] that takes part in loading. *)
Record StrField : Type := mkStr {
  required : bool;
  validators : list validator
}.

(** [BookSchema].  [id = fields.Int(dump_only=True)] is not a load field:
    it appears in [dump] only. *)
Definition load_fields : list (string * StrField) :=
  [ ("title",          mkStr true  [Length 1 100 "Length must be between 1 and 100."]);
    ("author",         mkStr true  [Length 1 100 "Length must be between 1 and 100."]);
    ("published_date", mkStr false [Regexp_date]);
    ("summary",        mkStr false []) ].

Definition load_field_names : list string := map fst load_fields.

(** [Field.deserialize] for a [fields.Str] without [allow_none]: the
    messages of the error it raises, or the value it yields ([None] when
    the key is missing and the field optional). *)
Definition deserialize (f : StrField) (raw : option json) : list string + option string :=
  match raw with
  | None =>
      if required f then inl ["Missing data for required field."] else inr None
  | Some JNull => inl ["Field may not be null."]
  | Some (JStr s) =>
      match flat_map (fun v => v s) (validators f) with
      | [] => inr (Some s)
      | messages => inl messages
      end
  | Some _ => inl ["Not a valid string."]
  end.

(** The loop of [Schema._deserialize] over the load fields: the errors
    stored, and the values set. *)
Fixpoint load_known (fs : list (string * StrField)) (data : list (string * json))
  : errors * list (string * json) :=
  match fs with
  | [] => ([], [])
  | (name, f) :: rest =>
      let '(errs, vals) := load_known rest data in
      match deserialize f (dict_get data name) with
      | inl messages => ((name, messages) :: errs, vals)
      | inr (Some s) => (errs, (name, JStr s) :: vals)
      | inr None => (errs, vals)
      end
  end.

(** [set(data) - fields] with the schema's default [unknown = RAISE]. *)
Definition unknown_keys (data : list (string * json)) : list string :=
  List.filter (fun k => negb (existsb (String.eqb k) load_field_names)) (dict_keys data).

Definition load_unknown (data : list (string * json)) : errors :=
  map (fun k => (k, ["Unknown field."])) (unknown_keys data).

(** [Schema._do_load]: the loaded dict, or the messages of the
    [ValidationError] raised when any error was stored. *)
Definition do_load (data : json) : errors + list (string * json) :=
  match data with
  | JDict entries =>
      let '(errs, vals) := load_known load_fields entries in
      match (errs ++ load_unknown entries)%list with
      | [] => inr vals
      | all => inl all
      end
  | _ => inl [("_schema", ["Invalid input type."])]
  end.

(** [book_schema.validate(data)]: the [ValidationError] of the load is
    caught and its messages returned; [{}] when the load succeeds. *)
Definition validate (data : json) : errors :=
  match do_load data with
  | inl errs => errs
  | inr _ => []
  end.

(** Truth value of the error dict, as in [if errors:]. *)
Definition truthy (e : errors) : bool :=
  match e with
  | [] => false
  | _ => true
  end.

(** The error dict as it is serialised in a response body. *)
Definition errors_json (e : errors) : json :=
  JDict (map (fun kv => (fst kv, JList (map JStr (snd kv)))) e).

End Schemas.

(* ===================================================================== *)
(** ** models.py *)
(* ===================================================================== *)

Module Models.

(** An instance of [class Book(db.Model)].  [id] is [None] on an object
    that was never flushed to the table; [title] and [author] are the
    [nullable=False] columns, the other two may be [None]. *)
Record Book : Type := mkBook {
  id : option Z;
  title : string;
  author : string;
  published_date : option string;
  summary : option string
}.

(** The [book] table: its rows in rowid order.  Every row has an id. *)
Definition table := list Book.

(** *** LIKE *)

(** SQL [lower()]: the 26 ASCII capitals are folded, nothing else. *)
Definition lower_char (c : ascii) : ascii :=
  let n := N_of_ascii c in
  if (65 <=? n)%N && (n <=? 90)%N then ascii_of_N (n + 32) else c.

Fixpoint lower (s : string) : string :=
  match s with
  | EmptyString => EmptyString
  | String c rest => String (lower_char c) (lower rest)
  end.

Definition is_percent (c : ascii) : bool := Ascii.eqb c "%".
Definition is_underscore (c : ascii) : bool := Ascii.eqb c "_".

(** [text LIKE pattern] without an ESCAPE clause: [%] stands for any run of
    characters, [_] for any one character, every other character for
    itself. *)
Fixpoint like (pattern : string) : string -> bool :=
  match pattern with
  | EmptyString =>
      fun text => match text with EmptyString => true | _ => false end
  | String p rest =>
      if is_percent p then
        fix any_run (text : string) : bool :=
          like rest text
          || match text with
             | EmptyString => false
             | String _ text' => any_run text'
             end
      else if is_underscore p then
        fun text => match text with
                    | EmptyString => false
                    | String _ text' => like rest text'
                    end
      else
        fun text => match text with
                    | EmptyString => false
                    | String c text' => Ascii.eqb p c && like rest text'
                    end
  end.

(** [column.ilike(pattern)], rendered as
    [lower(column) LIKE lower(pattern)]; a NULL column never matches. *)
Definition ilike (column : option string) (pattern : string) : bool :=
  match column with
  | Some text => like (lower pattern) (lower text)
  | None => false
  end.

(** The filter of [Book.search]: the three [ilike] tests joined by [or_],
    each against the pattern [f"%{query}%"]. *)
Definition search_filter (query : string) (b : Book) : bool :=
  let pattern := "%" ++ query ++ "%" in
  ilike (Some (title b)) pattern
  || ilike (Some (author b)) pattern
  || ilike (summary b) pattern.

(** [Book.search(query)], evaluated on the table. *)
Definition search (query : string) (rows : table) : list Book :=
  List.filter (search_filter query) rows.

(** *** ORDER BY *)

Inductive sort_field : Type := by_title | by_author | by_published_date.
Inductive sort_order : Type := asc | desc.

(** [getattr(Book, sort_field)], as the value of that column in a row. *)
Definition column (f : sort_field) (b : Book) : option string :=
  match f with
  | by_title => Some (title b)
  | by_author => Some (author b)
  | by_published_date => published_date b
  end.

(** Order of column values: NULL sorts before every text, texts compare
    character by character. *)
Definition column_leb (x y : option string) : bool :=
  match x, y with
  | None, _ => true
  | Some _, None => false
  | Some s, Some t =>
      match String.compare s t with
      | Gt => false
      | _ => true
      end
  end.

Definition row_leb (f : sort_field) (o : sort_order) (x y : Book) : bool :=
  match o with
  | asc => column_leb (column f x) (column f y)
  | desc => column_leb (column f y) (column f x)
  end.

(** [query.order_by(column)] / [query.order_by(column.desc())]: a stable
    sort of the rows on that column. *)
Definition order_by (f : sort_field) (o : sort_order) (rows : list Book) : list Book :=
  Py.sorted (row_leb f o) rows.

(** *** Pagination *)

Record Pagination : Type := mkPagination {
  items : list Book;
  total : Z;
  pages : Z
}.

(** [ceil(total / per_page)] on non-negative integers. *)
Definition ceil_div (total per_page : Z) : Z := (total + per_page - 1) / per_page.

(** An integer the database driver can bind as a query parameter: a
    signed 64-bit value.  Binding any other integer raises
    [OverflowError]. *)
Definition sqlite_int (n : Z) : bool :=
  (-9223372036854775808 <=? n) && (n <=? 9223372036854775807).

(** The LIMIT and OFFSET that [paginate(error_out=False)] queries with:
    a page below 1 becomes 1 and a page size below 1 becomes 20. *)
Definition limit_offset (page per_page : Z) : Z * Z :=
  let page := if page <? 1 then 1 else page in
  let per_page := if per_page <? 1 then 20 else per_page in
  (per_page, (page - 1) * per_page).

(** The pagination of a query that runs: the items are the rows at the
    offset, at most the limit of them; the total is the number of rows of
    the query, and the number of pages its ceiling. *)
Definition page_slice (page per_page : Z) (rows : list Book) : Pagination :=
  let page := if page <? 1 then 1 else page in
  let per_page := if per_page <? 1 then 20 else per_page in
  let total := Z.of_nat (List.length rows) in
  {| items := firstn (Z.to_nat per_page) (skipn (Z.to_nat ((page - 1) * per_page)) rows);
     total := total;
     pages := if total =? 0 then 0 else ceil_div total per_page |}.

(** [query.paginate(page=page, per_page=per_page, error_out=False)]: no
    page is refused for being out of range, but the query binds its LIMIT
    and OFFSET as parameters: [None] is the [OverflowError] of a value
    that does not fit. *)
Definition paginate (page per_page : Z) (rows : list Book) : option Pagination :=
  let '(limit, offset) := limit_offset page per_page in
  if sqlite_int limit && sqlite_int offset
  then Some (page_slice page per_page rows)
  else None.

(** *** Rows by id *)

Definition has_id (k : Z) (b : Book) : bool :=
  match id b with
  | Some j => j =? k
  | None => false
  end.

(** [Book.query.get_or_404(book_id)]: [None] is the [abort(404)]. *)
Definition get_or_404 (k : Z) (rows : table) : option Book :=
  find (has_id k) rows.

Definition max_id (rows : table) : Z :=
  fold_right (fun b m => match id b with Some k => Z.max k m | None => m end) 0 rows.

(** The INSERT of a flush: the row gets the next rowid, one more than the
    largest id in the table, 1 in an empty table. *)
Definition insert_row (b : Book) (rows : table) : Book * table :=
  let stored := {| id := Some (max_id rows + 1); title := title b; author := author b;
                   published_date := published_date b; summary := summary b |} in
  (stored, (rows ++ [stored])%list).

(** [db.session.add(book); db.session.commit()]: the row is inserted and
    the object, expired by the commit, reads its id back from the row. *)
Definition add_commit (b : Book) (rows : table) : Book * table :=
  insert_row b rows.

(** [db.session.bulk_save_objects(books); db.session.commit()]: the rows
    are inserted one after the other; the objects passed in are not touched
    ([return_defaults] is off), so they keep [id = None]. *)
Fixpoint bulk_save_objects (books : list Book) (rows : table) : table :=
  match books with
  | [] => rows
  | b :: rest => bulk_save_objects rest (snd (insert_row b rows))
  end.

(** The UPDATE of a commit after the attributes of a loaded row changed. *)
Definition update_row (k : Z) (b : Book) (rows : table) : table :=
  map (fun r => if has_id k r then b else r) rows.

(** [db.session.delete(book); db.session.commit()]. *)
Definition delete_row (k : Z) (rows : table) : table :=
  List.filter (fun r => negb (has_id k r)) rows.

Definition id_in (ids : list Z) (b : Book) : bool :=
  existsb (fun k => has_id k b) ids.

(** [Book.query.filter(Book.id.in_(ids)).delete()]: the number of rows
    deleted and the rows left.  Every id is bound as a parameter of the
    one DELETE: [None] is the [OverflowError] of an id that does not fit,
    raised before any row is deleted. *)
Definition delete_in (ids : list Z) (rows : table) : option (Z * table) :=
  if forallb sqlite_int ids
  then Some (Z.of_nat (List.length (List.filter (id_in ids) rows)),
             List.filter (fun r => negb (id_in ids r)) rows)
  else None.

End Models.

(* ===================================================================== *)
(** ** errors.py *)
(* ===================================================================== *)

Module Errors.

(** [class ValidationError(Exception)] with its two attributes. *)
Record ValidationError : Type := mkValidationError {
  message : string;
  status_code : Z
}.

(** [ValidationError(message)]: [status_code] defaults to 400. *)
Definition raise_validation (msg : string) : ValidationError :=
  {| message := msg; status_code := 400 |}.

(** The exceptions raised inside the [try] blocks of the view functions:
    the [NotFound] of [get_or_404], the [BadRequest] of the request parser,
    the [KeyError] of a subscript, the [OverflowError] of a query parameter
    the database driver cannot bind, and [ValidationError] itself. *)
Inductive exn : Type :=
| NotFound
| BadRequest
| KeyError (key : string)
| OverflowError
| Validation (e : ValidationError).

(** [str(e)]: code, name and description for the HTTP exception; for a
    [ValidationError] the one positional argument it was built with. *)
Definition str (e : exn) : string :=
  match e with
  | NotFound =>
      "404 Not Found: The requested URL was not found on the server. "
      ++ "If you entered the URL manually please check your spelling and try again."
  | BadRequest =>
      "400 Bad Request: The browser (or proxy) sent a request that this server "
      ++ "could not understand."
  | KeyError key => Py.repr key
  | OverflowError => "Python int too large to convert to SQLite INTEGER"
  | Validation v => message v
  end.

(** A response: the body and the HTTP status. *)
Definition response : Type := json * Z.

(** [handle_validation_error], registered for [ValidationError]. *)
Definition handle_validation_error (e : ValidationError) : response :=
  (JDict [("error", JStr (message e))], status_code e).

End Errors.

(* ===================================================================== *)
(** ** The response cache *)
(* ===================================================================== *)

Module Caching.

Import Errors.

(** The cache of [Cache(app)] with [CACHE_TYPE = 'simple']: a dict from
    key to the time the entry expires and the cached return value. *)
Definition cache_get (now : Z) (c : gmap string (Z * response)) (key : string)
  : option response :=
  match c !! key with
  | Some (expires, rv) => if now <? expires then Some rv else None
  | None => None
  end.

Definition cache_set (now : Z) (c : gmap string (Z * response)) (key : string)
  (rv : response) (timeout : Z) : gmap string (Z * response) :=
  <[key := (now + timeout, rv)]> c.

Definition cache_delete (c : gmap string (Z * response)) (key : string)
  : gmap string (Z * response) :=
  delete key c.

(** The key [cached] computes when [key_prefix] is given and holds no
    [%s]: the prefix itself, whatever the request. *)
Definition make_cache_key (key_prefix : string) : string := key_prefix.

(** The key [cached] computes with [query_string=True]: the request path
    followed by the digest of the sorted query arguments.  [hash_method]
    is the hex digest the cache is configured with (md5 unless told
    otherwise); nothing here depends on which one it is. *)
Definition make_cache_key_query_string (hash_method : string -> string)
  (path : string) (args : list (string * string)) : string :=
  path ++ hash_method (Py.str_pairs (Py.sorted Py.pair_leb args)).

End Caching.

(* ===================================================================== *)
(** ** app.py *)
(* ===================================================================== *)

Module App.

Import Schemas Models Errors Caching.

(** The process-wide handles of [app.py]: the database and the cache. *)
Record State : Type := mkState {
  store : table;
  cache : gmap string (Z * response)
}.

(** What a view function does: return a response or raise. *)
Inductive outcome : Type :=
| Return (rv : response)
| Raise (e : ValidationError).

(** [except Exception as e: ... raise ValidationError(str(e))], the
    handler every view function ends with. *)
Definition except_Exception (e : exn) : ValidationError :=
  raise_validation (Errors.str e).

(** [book_schema.dump(book)]. *)
Definition dump (b : Book) : json :=
  JDict [ ("id", of_option_int (id b));
          ("title", JStr (title b));
          ("author", JStr (author b));
          ("published_date", of_option_str (published_date b));
          ("summary", of_option_str (summary b)) ].

(** [books_schema.dump(books)]. *)
Definition dump_many (bs : list Book) : json := JList (map dump bs).

(** [data.get(key)] read as a text; after a successful validation every
    load field that is present holds a [str]. *)
Definition get_str (data : json) (key : string) : option string :=
  match member data key with
  | Some (JStr s) => Some s
  | _ => None
  end.

(** [Book(title=data['title'], author=data['author'],
          published_date=data.get('published_date'),
          summary=data.get('summary'))].  The subscripts raise [KeyError]
    on a missing key, which a successful validation excludes. *)
Definition new_Book (data : json) : exn + Book :=
  match get_str data "title" with
  | None => inl (KeyError "title")
  | Some t =>
      match get_str data "author" with
      | None => inl (KeyError "author")
      | Some a =>
          inr {| id := None; title := t; author := a;
                 published_date := get_str data "published_date";
                 summary := get_str data "summary" |}
      end
  end.

(** The [try: ... except Exception] frame of a view function that writes:
    on an exception the session is rolled back, so the state is the one
    the request found. *)
Definition try_except (st : State) (body : exn + response * State) : outcome * State :=
  match body with
  | inr (rv, st') => (Return rv, st')
  | inl e => (Raise (except_Exception e), st)
  end.

(** The same frame around a view function that only reads. *)
Definition try_except_read (body : exn + response) : outcome :=
  match body with
  | inr rv => Return rv
  | inl e => Raise (except_Exception e)
  end.

(** *** The [cached] decorator *)

(** [@cache.cached(timeout=...)] around a view function that only reads:
    a live entry under the key is returned as it is; otherwise the view
    function runs and what it returns is stored; an exception passes
    through and nothing is stored. *)
Definition cached (timeout : Z) (cache_key : string) (now : Z)
  (f : State -> outcome) (st : State) : outcome * State :=
  match cache_get now (cache st) cache_key with
  | Some rv => (Return rv, st)
  | None =>
      match f st with
      | Return rv =>
          (Return rv, {| store := store st;
                         cache := cache_set now (cache st) cache_key rv timeout |})
      | Raise e => (Raise e, st)
      end
  end.

(** *** GET /books *)

(** The result of [pagination_parser.parse_args()]. *)
Record ListArgs : Type := mkListArgs {
  page : Z;
  per_page : Z;
  sort : option sort_field;
  order : sort_order;
  q : option string
}.

(** A list request: the raw query arguments, which key the cache, and
    what the request parser makes of them ([None] when it aborts with 400
    on an argument it cannot convert). *)
Record ListRequest : Type := mkListRequest {
  query_args : list (string * string);
  parse_args : option ListArgs
}.

(** Truth value of [search_query]: present and not empty. *)
Definition search_query_given (q : option string) : option string :=
  match q with
  | Some EmptyString => None
  | other => other
  end.

(** The query of [BookList.get] before pagination. *)
Definition list_query (args : ListArgs) (rows : table) : list Book :=
  let query :=
    match search_query_given (q args) with
    | Some search_query => search search_query rows
    | None => rows
    end in
  match sort args with
  | Some sort_field => order_by sort_field (order args) query
  | None => query
  end.

(** The body of [BookList.get]. *)
Definition BookList_get_body (req : ListRequest) (st : State) : outcome :=
  try_except_read
    match parse_args req with
    | None => inl BadRequest
    | Some args =>
        match paginate (page args) (per_page args) (list_query args (store st)) with
        | None => inl OverflowError
        | Some pagination =>
            inr (JDict [ ("status", JStr "success");
                         ("data", dump_many (items pagination));
                         ("page", JInt (page args));
                         ("per_page", JInt (per_page args));
                         ("total_pages", JInt (pages pagination));
                         ("total_items", JInt (total pagination));
                         ("search_query", of_option_str (search_query_given (q args))) ],
                 200)
        end
    end.

(** [BookList.get] under [@cache.cached(timeout=300, query_string=True)]. *)
Definition BookList_get (hash_method : string -> string) (now : Z) (req : ListRequest)
  : State -> outcome * State :=
  cached 300 (make_cache_key_query_string hash_method "/books" (query_args req)) now
         (BookList_get_body req).

(** *** POST /books *)

(** [BookList.post].  Nothing is done to the cache. *)
Definition BookList_post (data : json) (st : State) : outcome * State :=
  try_except st
    (let errors := validate data in
     if truthy errors then inl (Validation (raise_validation (Py.str_errors errors)))
     else
       match new_Book data with
       | inl e => inl e
       | inr new_book =>
           let '(new_book, rows) := add_commit new_book (store st) in
           inr (JDict [ ("status", JStr "success");
                        ("message", JStr "Book created successfully");
                        ("data", dump new_book) ],
                201,
                {| store := rows; cache := cache st |})
       end).

(** *** /books/<int:book_id> *)

(** The two [cache.delete] calls that follow the commit of an update or a
    delete: the keys [f'book{book_id}'] and ['books']. *)
Definition invalidate (book_id : Z) (c : gmap string (Z * response))
  : gmap string (Z * response) :=
  cache_delete (cache_delete c ("book" ++ Py.str_int book_id)) "books".

(** [BookResource.put]. *)
Definition BookResource_put (book_id : Z) (data : json) (st : State) : outcome * State :=
  try_except st
    match get_or_404 book_id (store st) with
    | None => inl NotFound
    | Some book =>
        let errors := validate data in
        if truthy errors then inl (Validation (raise_validation (Py.str_errors errors)))
        else
          let book :=
            {| id := id book;
               title := default (title book) (get_str data "title");
               author := default (author book) (get_str data "author");
               published_date :=
                 match get_str data "published_date" with
                 | Some d => Some d
                 | None => published_date book
                 end;
               summary :=
                 match get_str data "summary" with
                 | Some s => Some s
                 | None => summary book
                 end |} in
          inr (JDict [ ("status", JStr "success");
                       ("message", JStr "Book updated successfully");
                       ("data", dump book) ],
               200,
               {| store := update_row book_id book (store st);
                  cache := invalidate book_id (cache st) |})
    end.

(** [BookResource.delete]. *)
Definition BookResource_delete (book_id : Z) (st : State) : outcome * State :=
  try_except st
    match get_or_404 book_id (store st) with
    | None => inl NotFound
    | Some _ =>
        inr (JDict [ ("status", JStr "success");
                     ("message", JStr "Book deleted successfully") ],
             200,
             {| store := delete_row book_id (store st);
                cache := invalidate book_id (cache st) |})
    end.

(** The body of [BookResource.get]. *)
Definition BookResource_get_body (book_id : Z) (st : State) : outcome :=
  try_except_read
    match get_or_404 book_id (store st) with
    | None => inl NotFound
    | Some book =>
        inr (JDict [ ("status", JStr "success"); ("data", dump book) ], 200)
    end.

(** [BookResource.get] under [@cache.cached(timeout=300, key_prefix='book')]. *)
Definition BookResource_get (now : Z) (book_id : Z) : State -> outcome * State :=
  cached 300 (make_cache_key "book") now (BookResource_get_body book_id).

(** *** /books/bulk *)

(** One entry of the [errors] list of a bulk create. *)
Definition bulk_error (idx : Z) (book_errors : errors) : json :=
  JDict [ ("index", JInt idx); ("errors", errors_json book_errors) ].

(** The loop [for idx, book_data in enumerate(books_data)] from index
    [idx] on: the [errors] and the [new_books] it appends. *)
Fixpoint bulk_loop (idx : Z) (books_data : list json) : exn + list json * list Book :=
  match books_data with
  | [] => inr ([], [])
  | book_data :: rest =>
      let book_errors := validate book_data in
      if truthy book_errors then
        match bulk_loop (idx + 1) rest with
        | inl e => inl e
        | inr (errors, new_books) => inr (bulk_error idx book_errors :: errors, new_books)
        end
      else
        match new_Book book_data with
        | inl e => inl e
        | inr new_book =>
            match bulk_loop (idx + 1) rest with
            | inl e => inl e
            | inr (errors, new_books) => inr (errors, new_book :: new_books)
            end
        end
  end.

(** [BulkBookOperations.post] on the request body [{"books": books_data}].
    Nothing is done to the cache. *)
Definition BulkBookOperations_post (books_data : list json) (st : State) : outcome * State :=
  try_except st
    match bulk_loop 0 books_data with
    | inl e => inl e
    | inr (errors, new_books) =>
        match errors with
        | _ :: _ =>
            inr (JDict [ ("status", JStr "error");
                         ("message", JStr "Validation errors occurred");
                         ("errors", JList errors) ],
                 400,
                 st)
        | [] =>
            inr (JDict [ ("status", JStr "success");
                         ("message", JStr ("Successfully created "
                                           ++ Py.str_int (Z.of_nat (List.length new_books))
                                           ++ " books"));
                         ("data", dump_many new_books) ],
                 201,
                 {| store := bulk_save_objects new_books (store st); cache := cache st |})
        end
    end.

(** [BulkBookOperations.delete] on the request body [{"ids": book_ids}].
    Nothing is done to the cache. *)
Definition BulkBookOperations_delete (book_ids : list Z) (st : State) : outcome * State :=
  try_except st
    match book_ids with
    | [] => inl (Validation (raise_validation "No book IDs provided"))
    | _ =>
        match delete_in book_ids (store st) with
        | None => inl OverflowError
        | Some (deleted_count, rows) =>
            inr (JDict [ ("status", JStr "success");
                         ("message", JStr ("Successfully deleted " ++ Py.str_int deleted_count
                                           ++ " books")) ],
                 200,
                 {| store := rows; cache := cache st |})
        end
    end.

(** *** Requests and the error handler *)

Inductive request : Type :=
| GET_books (now : Z) (req : ListRequest)
| POST_books (data : json)
| GET_book (now : Z) (book_id : Z)
| PUT_book (book_id : Z) (data : json)
| DELETE_book (book_id : Z)
| POST_books_bulk (books_data : list json)
| DELETE_books_bulk (book_ids : list Z).

(** The routes of [app.py]. *)
Definition route (hash_method : string -> string) (r : request) : State -> outcome * State :=
  match r with
  | GET_books now req => BookList_get hash_method now req
  | POST_books data => BookList_post data
  | GET_book now book_id => BookResource_get now book_id
  | PUT_book book_id data => BookResource_put book_id data
  | DELETE_book book_id => BookResource_delete book_id
  | POST_books_bulk books_data => BulkBookOperations_post books_data
  | DELETE_books_bulk book_ids => BulkBookOperations_delete book_ids
  end.

(** What the client receives when the application propagates exceptions
    (DEBUG or TESTING is on, as in the default and in the testing
    configuration): the returned response, or the one
    [handle_validation_error] makes of the exception, as registered with
    [app.register_error_handler(ValidationError, handle_validation_error)]. *)
Definition respond (o : outcome) : response :=
  match o with
  | Return rv => rv
  | Raise e => handle_validation_error e
  end.

(** The configurations of [config.py]; ['default'] is the development
    one. *)
Inductive config : Type := DevelopmentConfig | TestingConfig | ProductionConfig.

Definition DEBUG (c : config) : bool :=
  match c with
  | DevelopmentConfig => true
  | _ => false
  end.

Definition TESTING (c : config) : bool :=
  match c with
  | TestingConfig => true
  | _ => false
  end.

(** Flask propagates exceptions when DEBUG or TESTING is on. *)
Definition propagate_exceptions (c : config) : bool := DEBUG c || TESTING c.

(** The answer the [Api] of flask-restx gives for an exception that none
    of its own handlers knows and that is not propagated. *)
Definition internal_server_error : response :=
  (JDict [("message", JStr "Internal Server Error")], 500).

(** What the client receives under a configuration.  The view functions
    are resources of the [Api], which sees their exceptions first: it
    passes a [ValidationError] on to the handlers registered with the
    application only when exceptions are propagated, and answers it itself
    otherwise. *)
Definition dispatch (c : config) (o : outcome) : response :=
  match o with
  | Return rv => rv
  | Raise e =>
      if propagate_exceptions c then handle_validation_error e else internal_server_error
  end.

Definition serve (c : config) (hash_method : string -> string) (r : request) (st : State)
  : response * State :=
  let '(o, st') := route hash_method r st in (dispatch c o, st').

Definition status (rv : response) : Z := snd rv.
Definition body (rv : response) : json := fst rv.

End App.

(* ===================================================================== *)
(** ** api/v1/routes.py *)
(* ===================================================================== *)

(** The second copy of the routes, a namespace named [v1] that [app.py]
    does not mount, and whose decorators read [current_app] when the module
    is imported, so that it can only be imported inside an application
    context.  It is modelled as its handlers behave once registered, under
    the path a namespace has by default, [/v1].  The bodies of [BookList.get],
    [BookResource.get], [BookResource.put] and [BookResource.delete] are
    those of [app.py]; the list is cached under its own request path, and
    the three handlers below differ from [app.py] in the [cache.delete]
    calls that follow the commit. *)
Module RoutesV1.

Import Schemas Models Errors Caching App.

(** [BookList.get] under [@cache.cached(timeout=300, query_string=True)],
    reached at [/v1/books]. *)
Definition BookList_get (hash_method : string -> string) (now : Z) (req : ListRequest)
  : State -> outcome * State :=
  cached 300 (make_cache_key_query_string hash_method "/v1/books" (query_args req)) now
         (BookList_get_body req).

(** [BookList.post]: as in [app.py], then [cache.delete('books')]. *)
Definition BookList_post (data : json) (st : State) : outcome * State :=
  try_except st
    (let errors := validate data in
     if truthy errors then inl (Validation (raise_validation (Py.str_errors errors)))
     else
       match new_Book data with
       | inl e => inl e
       | inr new_book =>
           let '(new_book, rows) := add_commit new_book (store st) in
           inr (JDict [ ("status", JStr "success");
                        ("message", JStr "Book created successfully");
                        ("data", dump new_book) ],
                201,
                {| store := rows; cache := cache_delete (cache st) "books" |})
       end).

(** [BulkBookOperations.post]: as in [app.py], then
    [cache.delete('books')]. *)
Definition BulkBookOperations_post (books_data : list json) (st : State) : outcome * State :=
  try_except st
    match bulk_loop 0 books_data with
    | inl e => inl e
    | inr (errors, new_books) =>
        match errors with
        | _ :: _ =>
            inr (JDict [ ("status", JStr "error");
                         ("message", JStr "Validation errors occurred");
                         ("errors", JList errors) ],
                 400,
                 st)
        | [] =>
            inr (JDict [ ("status", JStr "success");
                         ("message", JStr ("Successfully created "
                                           ++ Py.str_int (Z.of_nat (List.length new_books))
                                           ++ " books"));
                         ("data", dump_many new_books) ],
                 201,
                 {| store := bulk_save_objects new_books (store st);
                    cache := cache_delete (cache st) "books" |})
        end
    end.

(** [for book_id in book_ids: cache.delete(f'book{book_id}')]. *)
Definition delete_book_keys (book_ids : list Z) (c : gmap string (Z * response))
  : gmap string (Z * response) :=
  fold_left (fun c book_id => cache_delete c ("book" ++ Py.str_int book_id)) book_ids c.

(** [BulkBookOperations.delete]: as in [app.py], then
    [cache.delete('books')] and the loop over the ids. *)
Definition BulkBookOperations_delete (book_ids : list Z) (st : State) : outcome * State :=
  try_except st
    match book_ids with
    | [] => inl (Validation (raise_validation "No book IDs provided"))
    | _ =>
        match delete_in book_ids (store st) with
        | None => inl OverflowError
        | Some (deleted_count, rows) =>
            inr (JDict [ ("status", JStr "success");
                         ("message", JStr ("Successfully deleted " ++ Py.str_int deleted_count
                                           ++ " books")) ],
                 200,
                 {| store := rows;
                    cache := delete_book_keys book_ids (cache_delete (cache st) "books") |})
        end
    end.

(** The routes of [api/v1/routes.py]. *)
Definition route (hash_method : string -> string) (r : request) : State -> outcome * State :=
  match r with
  | GET_books now req => BookList_get hash_method now req
  | POST_books data => BookList_post data
  | GET_book now book_id => BookResource_get now book_id
  | PUT_book book_id data => BookResource_put book_id data
  | DELETE_book book_id => BookResource_delete book_id
  | POST_books_bulk books_data => BulkBookOperations_post books_data
  | DELETE_books_bulk book_ids => BulkBookOperations_delete book_ids
  end.

End RoutesV1.

(* ===================================================================== *)
(** ** Notions the properties are stated with *)
(* ===================================================================== *)

Module Spec.

Import Schemas Models Errors Caching App.






(** The rows a validated payload must end up as: the object with the
    ids [k], [k + 1], ... in turn. *)
Definition with_id (k : Z) (b : Book) : Book :=
  {| id := Some k; title := title b; author := author b;
     published_date := published_date b; summary := summary b |}.

Fixpoint numbered (k : Z) (bs : list Book) : list Book :=
  match bs with
  | [] => []
  | b :: rest => with_id k b :: numbered (k + 1) rest
  end.

(** [enumerate(items)] from index [idx] on. *)
Fixpoint enumerate (idx : Z) (items : list json) : list (Z * json) :=
  match items with
  | [] => []
  | x :: rest => (idx, x) :: enumerate (idx + 1) rest
  end.

(** The entries a rejected bulk create must report: one per failing item,
    with its index and its own error dict. *)
Definition failing_items (books_data : list json) : list json :=
  map (fun ix => bulk_error (fst ix) (validate (snd ix)))
      (List.filter (fun ix => truthy (validate (snd ix))) (enumerate 0 books_data)).

(** The entry a rejected bulk create shows for the item at [idx]: its
    index, and its field errors, every field with the list of its
    messages. *)
Definition failure_entry (idx : Z) (field_errors : list (string * list string)) : json :=
  JDict [ ("index", JInt idx);
          ("errors",
           JDict (map (fun fe => (fst fe, JList (map JStr (snd fe)))) field_errors)) ].

(** The [errors] a rejected bulk create must report: one entry for every
    item that validation refuses, in the order of the request, and none for
    the others. *)
Definition reported_failures (books_data : list json) : list json :=
  flat_map (fun ix => match validate (snd ix) with
                      | [] => []
                      | field_errors => [failure_entry (fst ix) field_errors]
                      end)
           (enumerate 0 books_data).

(** The member [key] of the payload is the text [v], or is missing when
    [v] is [None]. *)
Definition text_at (d : json) (key : string) (v : option string) : Prop :=
  match v with
  | Some s => member d key = Some (JStr s)
  | None => member d key = None
  end.

(** The row holds what the payload sent. *)
Definition persists (d : json) (r : Book) : Prop :=
  member d "title" = Some (JStr (title r))
  /\ member d "author" = Some (JStr (author r))
  /\ text_at d "published_date" (published_date r)
  /\ text_at d "summary" (summary r).

(** The ids [k], [k + 1], ... of [n] rows written one after the other. *)
Definition fresh_ids (k : Z) (n : nat) : list (option Z) :=
  map (fun i => Some (k + Z.of_nat i)) (seq 0 n).


(** The largest integer a query parameter can be. *)
Definition sqlite_max : Z := 9223372036854775807.

(** Least number of pages of [per_page] items that hold [total] items. *)
Definition is_ceil (total per_page pages : Z) : Prop :=
  total <= pages * per_page /\ (pages - 1) * per_page < total.


(** The requests that write to the store. *)
Definition is_write (r : request) : bool :=
  match r with
  | GET_books _ _ | GET_book _ _ => false
  | _ => true
  end.

(** The two copies of the routes. *)
Inductive route_set : Type := app_routes | v1_routes.

Definition route_in (rs : route_set) (hash_method : string -> string)
  : request -> State -> outcome * State :=
  match rs with
  | app_routes => App.route hash_method
  | v1_routes => RoutesV1.route hash_method
  end.

End Spec.

(** Small stores, payloads and requests the properties are tried on. *)
Module Samples.

Import Models App.

Definition tom : Book :=
  {| id := Some 1; title := "Tom"; author := "A"; published_date := None; summary := None |}.

Definition amy : Book :=
  {| id := Some 2; title := "Amy"; author := "B"; published_date := None; summary := None |}.

Definition empty_state : State := {| store := []; cache := ∅ |}.
Definition one_book : State := {| store := [tom]; cache := ∅ |}.
Definition two_books : State := {| store := [tom; amy]; cache := ∅ |}.

Definition book_payload (t a : string) : json :=
  JDict [("title", JStr t); ("author", JStr a)].

(** [{"author": "New"}]. *)
Definition author_only : json := JDict [("author", JStr "New")].

(** [{"title": "T", "author": "A", "extra": 1}]. *)
Definition with_extra_field : json :=
  JDict [("title", JStr "T"); ("author", JStr "A"); ("extra", JInt 1)].

(** A digest to run list requests with: the text itself. *)
Definition plain_digest : string -> string := fun text => text.

(** [GET /books] without arguments. *)
Definition list_all : ListRequest :=
  {| query_args := [];
     parse_args := Some {| page := 1; per_page := 10; sort := None; order := asc; q := None |} |}.




(** The [sample_book] fixture of [tests/conftest.py], once committed, and
    the payloads of [tests/test_books.py]. *)
Definition sample_book : Book :=
  {| id := Some 1; title := "Test Book"; author := "Test Author";
     published_date := Some "2024-01-01"; summary := Some "Test Summary" |}.

Definition with_sample_book : State := {| store := [sample_book]; cache := ∅ |}.

Definition test_create_data : json :=
  JDict [ ("title", JStr "New Test Book"); ("author", JStr "New Test Author");
          ("published_date", JStr "2024-02-01"); ("summary", JStr "New Test Summary") ].

Definition test_update_data : json :=
  JDict [ ("title", JStr "Updated Book"); ("author", JStr "Updated Author") ].

Definition test_invalid_data : json :=
  JDict [ ("title", JStr ""); ("author", JStr "Test Author") ].

End Samples.

(* ===================================================================== *)
(** ** Further notions: payloads, keys of the table, pages *)
(* ===================================================================== *)

Module Props.

Import Schemas Models Errors Caching App.

(** The key holds a text whose length lies between [min] and [max]. *)
Definition text_within (min max : nat) (v : option json) : Prop :=
  exists s, v = Some (JStr s) /\ (min <= String.length s <= max)%nat.

(** The key is missing, or holds a text that passes [ok]. *)
Definition optional_text (ok : string -> bool) (v : option json) : Prop :=
  v = None \/ exists s, v = Some (JStr s) /\ ok s = true.

(** The payloads [BookSchema] lets through. *)
Definition acceptable (data : json) : Prop :=
  exists entries,
    data = JDict entries
    /\ text_within 1 100 (dict_get entries "title")
    /\ text_within 1 100 (dict_get entries "author")
    /\ optional_text date_regex_match (dict_get entries "published_date")
    /\ optional_text (fun _ => true) (dict_get entries "summary")
    /\ (forall k, In k (dict_keys entries) -> In k load_field_names).

(** [Field.deserialize] goes through. *)
Definition accepts (f : StrField) (raw : option json) : bool :=
  match deserialize f raw with
  | inr _ => true
  | inl _ => false
  end.

(** Every row of the table has an id, and no two rows share one. *)
Definition well_keyed (rows : table) : Prop :=
  Forall (fun k => k <> None) (map id rows) /\ NoDup (map id rows).

(** The book an update leaves: the assignments of [BookResource.put]. *)
Definition merged (book : Book) (data : json) : Book :=
  {| id := id book;
     title := default (title book) (get_str data "title");
     author := default (author book) (get_str data "author");
     published_date :=
       match get_str data "published_date" with
       | Some d => Some d
       | None => published_date book
       end;
     summary :=
       match get_str data "summary" with
       | Some s => Some s
       | None => summary book
       end |}.

(** The page numbers 1, ..., [n]. *)
Definition page_numbers (n : nat) : list Z :=
  map (fun i => Z.of_nat i + 1) (seq 0 n).

(** The paginations are those of the pages numbered in turn. *)
Definition paginations_of (per_page : Z) (rows : list Book)
  (numbers : list Z) (ps : list Pagination) : Prop :=
  Forall2 (fun n p => paginate n per_page rows = Some p) numbers ps.


(** The rows are in the order of the column, each row before all the
    rows that follow it. *)
Definition ordered_by (f : sort_field) (o : sort_order) (rows : list Book) : Prop :=
  StronglySorted (fun x y => row_leb f o x y = true) rows.

(** The newline character. *)
Definition newline : string := String (ascii_of_N 10) "".

(** The response of a successful delete. *)
Definition deleted_response : response :=
  (JDict [ ("status", JStr "success"); ("message", JStr "Book deleted successfully") ], 200).

(** The response of a successful update. *)
Definition updated_response (b : Book) : response :=
  (JDict [ ("status", JStr "success");
           ("message", JStr "Book updated successfully");
           ("data", dump b) ],
   200).

(** The response of a get-by-id that finds the book. *)
Definition found_response (b : Book) : response :=
  (JDict [ ("status", JStr "success"); ("data", dump b) ], 200).

(** The response of a list request, from its pagination. *)
Definition list_response (args : ListArgs) (p : Pagination) : response :=
  (JDict [ ("status", JStr "success");
           ("data", dump_many (items p));
           ("page", JInt (page args));
           ("per_page", JInt (per_page args));
           ("total_pages", JInt (pages p));
           ("total_items", JInt (total p));
           ("search_query", of_option_str (search_query_given (q args))) ],
   200).

End Props.

(* ===================================================================== *)
(** ** Properties of the search *)
(* ===================================================================== *)

Section Strings.

Lemma append_nil_r (s : string) : s ++ "" = s.
Proof. induction s as [|c s IH]; simpl; [reflexivity | now rewrite IH]. Qed.

Lemma append_assoc (a b c : string) : (a ++ b) ++ c = a ++ b ++ c.
Proof. induction a as [|x a IH]; simpl; [reflexivity | now rewrite IH]. Qed.

End Strings.

Module SearchFacts.

Import Models Spec.

Lemma lower_app (a b : string) : lower (a ++ b) = lower a ++ lower b.
Proof. induction a as [|c a IH]; simpl; [reflexivity | now rewrite IH]. Qed.












End SearchFacts.

(* ===================================================================== *)
(** ** Properties of ordering and pagination *)
(* ===================================================================== *)

Module QueryFacts.

Import Models Spec.

Section Sorted.

Context {A : Type} (leb : A -> A -> bool).

Lemma insert_sorted_perm (x : A) (l : list A) :
  Permutation (Py.insert_sorted leb x l) (x :: l).
Proof.
  induction l as [|y l IH]; simpl; [reflexivity |].
  destruct (leb x y); [reflexivity |].
  rewrite IH. apply perm_swap.
Qed.

Lemma sorted_perm (l : list A) : Permutation (Py.sorted leb l) l.
Proof.
  induction l as [|x l IH]; simpl; [reflexivity |].
  rewrite insert_sorted_perm. now constructor.
Qed.

Lemma sorted_length (l : list A) : List.length (Py.sorted leb l) = List.length l.
Proof. apply Permutation_length, sorted_perm. Qed.

Lemma sorted_In (x : A) (l : list A) : In x (Py.sorted leb l) <-> In x l.
Proof.
  split; apply Permutation_in; [apply sorted_perm | symmetry; apply sorted_perm].
Qed.

End Sorted.

(** The rows the search of a list request selects, before any ordering. *)
Lemma list_query_perm (args : App.ListArgs) (rows : table) :
  Permutation
    (App.list_query args rows)
    (match App.search_query_given (App.q args) with
     | Some query => search query rows
     | None => rows
     end).
Proof.
  unfold App.list_query. destruct (App.sort args); [apply sorted_perm | reflexivity].
Qed.

Lemma ceil_div_is_ceil (total per_page : Z) :
  0 <= total -> 1 <= per_page -> is_ceil total per_page (ceil_div total per_page).
Proof.
  intros Ht Hp. unfold is_ceil, ceil_div.
  pose proof (Z.div_mod (total + per_page - 1) per_page ltac:(lia)) as E.
  pose proof (Z.mod_pos_bound (total + per_page - 1) per_page ltac:(lia)) as B.
  nia.
Qed.

Lemma ceil_div_zero (per_page : Z) : 1 <= per_page -> ceil_div 0 per_page = 0.
Proof. intros Hp. unfold ceil_div. apply Z.div_small. lia. Qed.


Lemma slice_total (page per_page : Z) (rows : list Book) :
  total (page_slice page per_page rows) = Z.of_nat (List.length rows).
Proof. reflexivity. Qed.

Lemma slice_pages (page per_page : Z) (rows : list Book) :
  1 <= per_page ->
  is_ceil (Z.of_nat (List.length rows)) per_page (pages (page_slice page per_page rows))
  /\ (List.length rows = 0%nat -> pages (page_slice page per_page rows) = 0).
Proof.
  intros Hper. unfold page_slice. cbn [pages].
  destruct (per_page <? 1) eqn:E2; [apply Z.ltb_lt in E2; lia |].
  destruct (Z.of_nat (List.length rows) =? 0) eqn:E0.
  - apply Z.eqb_eq in E0. split; [| reflexivity].
    rewrite E0. unfold is_ceil. lia.
  - apply Z.eqb_neq in E0. split; [apply ceil_div_is_ceil; lia | lia].
Qed.

(** Within the range of the database's integers the query runs. *)
Lemma paginate_fits (page per_page : Z) (rows : list Book) :
  1 <= page ->
  1 <= per_page ->
  per_page <= 9223372036854775807 ->
  (page - 1) * per_page <= 9223372036854775807 ->
  paginate page per_page rows = Some (page_slice page per_page rows).
Proof.
  intros Hpage Hper Hlimit Hoffset. unfold paginate, limit_offset, sqlite_int.
  destruct (page <? 1) eqn:E1; [apply Z.ltb_lt in E1; lia |].
  destruct (per_page <? 1) eqn:E2; [apply Z.ltb_lt in E2; lia |].
  assert (0 <= (page - 1) * per_page) by nia.
  repeat match goal with
         | |- context [?a <=? ?b] =>
             let E := fresh in destruct (a <=? b) eqn:E; [| apply Z.leb_gt in E; lia]
         end.
  reflexivity.
Qed.

(** Beyond it the driver raises. *)
Lemma paginate_overflow (page per_page : Z) (rows : list Book) :
  1 <= page ->
  1 <= per_page ->
  9223372036854775807 < per_page \/ 9223372036854775807 < (page - 1) * per_page ->
  paginate page per_page rows = None.
Proof.
  intros Hpage Hper Hover. unfold paginate, limit_offset, sqlite_int.
  destruct (page <? 1) eqn:E1; [apply Z.ltb_lt in E1; lia |].
  destruct (per_page <? 1) eqn:E2; [apply Z.ltb_lt in E2; lia |].
  destruct Hover as [H | H].
  - destruct (per_page <=? 9223372036854775807) eqn:E; [apply Z.leb_le in E; lia |].
    now rewrite andb_false_r.
  - destruct ((page - 1) * per_page <=? 9223372036854775807) eqn:E;
      [apply Z.leb_le in E; lia |].
    now rewrite !andb_false_r.
Qed.

(** Whenever the query runs, its pagination is the slice. *)
Lemma paginate_some (page per_page : Z) (rows : list Book) (p : Pagination) :
  paginate page per_page rows = Some p -> p = page_slice page per_page rows.
Proof.
  unfold paginate. destruct (limit_offset page per_page) as [limit offset].
  destruct (sqlite_int limit && sqlite_int offset); [| discriminate].
  intros H. now injection H.
Qed.

End QueryFacts.

(* ===================================================================== *)
(** ** The list operation *)
(* ===================================================================== *)

Import Schemas Models Errors Caching App Spec.

(** The list request is computed live when the cache holds no live entry
    under its key. *)
Lemma cached_miss (timeout now : Z) (key : string) (f : State -> outcome) (st : State) :
  cache_get now (cache st) key = None ->
  fst (cached timeout key now f st) = f st.
Proof.
  intros Hmiss. unfold cached. rewrite Hmiss. now destruct (f st).
Qed.








(* ===================================================================== *)
(** ** Validation *)
(* ===================================================================== *)

Module ValidateFacts.

(** The error dict of an object: the errors of the load fields, then one
    for every unknown key. *)
Lemma validate_dict (entries : list (string * json)) :
  validate (JDict entries)
  = (fst (load_known load_fields entries) ++ load_unknown entries)%list.
Proof.
  unfold validate, do_load.
  destruct (load_known load_fields entries) as [errs vals]. cbn [fst].
  now destruct (errs ++ load_unknown entries)%list.
Qed.

(** Loading either yields a dict, and then no error is reported, or
    raises with a dict of errors that is not empty, and [validate] returns
    it. *)
Lemma validate_do_load (data : json) :
  (exists vals, do_load data = inr vals /\ validate data = [])
  \/ (exists errs, do_load data = inl errs /\ errs <> [] /\ validate data = errs).
Proof.
  unfold validate. destruct data; try (right; eexists; repeat split; reflexivity || discriminate).
  unfold do_load. destruct (load_known load_fields entries) as [errs vals].
  destruct (errs ++ load_unknown entries)%list eqn:E.
  - left. now exists vals.
  - right. eexists. repeat split. discriminate.
Qed.

Lemma validate_not_dict (data : json) :
  validate data = [] -> exists entries, data = JDict entries.
Proof. destruct data; try discriminate. intros _. now eexists. Qed.

(** A key outside the load fields is reported as unknown. *)
Lemma unknown_field_reported (entries : list (string * json)) (k : string) (v : json) :
  In (k, v) entries ->
  ~ In k load_field_names ->
  In (k, ["Unknown field."]) (validate (JDict entries)).
Proof.
  intros Hin Hunknown. rewrite validate_dict. apply in_or_app. right.
  unfold load_unknown. apply (in_map (fun k => (k, ["Unknown field."]))).
  unfold unknown_keys. apply filter_In. split.
  - unfold dict_keys. now apply (in_map fst) in Hin.
  - apply negb_true_iff. destruct (existsb (String.eqb k) load_field_names) eqn:E; [| reflexivity].
    apply existsb_exists in E as [x [Hx Hk]]. apply String.eqb_eq in Hk. now subst x.
Qed.

(** The errors of the load fields, one field at a time. *)
Lemma load_known_errors_cons (name : string) (f : StrField)
  (fs : list (string * StrField)) (data : list (string * json)) :
  fst (load_known ((name, f) :: fs) data)
  = match deserialize f (dict_get data name) with
    | inl messages => (name, messages) :: fst (load_known fs data)
    | inr _ => fst (load_known fs data)
    end.
Proof.
  cbn [load_known]. destruct (load_known fs data) as [errs vals].
  now destruct (deserialize f (dict_get data name)) as [m | [s |]].
Qed.

(** A required text field passes only when the key holds a text. *)
Lemma required_field_present (f : StrField) (raw : option json) (v : option string) :
  required f = true ->
  deserialize f raw = inr v ->
  exists s, raw = Some (JStr s) /\ v = Some s.
Proof.
  intros Hreq. unfold deserialize. rewrite Hreq.
  destruct raw as [[| | | | s | |] |]; try discriminate.
  destruct (flat_map (fun v0 => v0 s) (validators f)); [| discriminate].
  intros E. injection E as <-. now exists s.
Qed.

(** An optional text field passes only when the key is missing or holds
    a text. *)
Lemma optional_field_text (f : StrField) (raw : option json) (v : option string) :
  deserialize f raw = inr v ->
  raw = None \/ exists s, raw = Some (JStr s).
Proof.
  unfold deserialize. destruct raw as [[| | | | s | |] |]; try discriminate.
  - intros _. right. now exists s.
  - intros _. now left.
Qed.

(** A payload that validates is an object with a text title and a text
    author. *)
Lemma validate_ok_required (data : json) :
  validate data = [] ->
  exists entries t a,
    data = JDict entries
    /\ dict_get entries "title" = Some (JStr t)
    /\ dict_get entries "author" = Some (JStr a).
Proof.
  intros Hok. destruct (validate_not_dict data Hok) as [entries ->].
  rewrite validate_dict in Hok. apply app_eq_nil in Hok as [Hknown _].
  unfold load_fields in Hknown.
  rewrite load_known_errors_cons in Hknown.
  destruct (deserialize _ (dict_get entries "title")) as [m | vt] eqn:Et; [discriminate |].
  rewrite load_known_errors_cons in Hknown.
  destruct (deserialize _ (dict_get entries "author")) as [m | va] eqn:Ea; [discriminate |].
  apply required_field_present in Et as [t [Et _]]; [| reflexivity].
  apply required_field_present in Ea as [a [Ea _]]; [| reflexivity].
  now exists entries, t, a.
Qed.

(** So the constructor call that follows a successful validation does
    not raise, and the object it builds has no id yet. *)
Lemma validate_ok_new_Book (data : json) :
  validate data = [] ->
  exists b, new_Book data = inr b /\ id b = None.
Proof.
  intros Hok. destruct (validate_ok_required data Hok) as [entries [t [a [-> [Et Ea]]]]].
  unfold new_Book, get_str, member. rewrite Et, Ea.
  eexists. split; reflexivity.
Qed.

(** A payload without a title does not validate. *)
Lemma validate_missing_title (entries : list (string * json)) :
  dict_get entries "title" = None ->
  In ("title", ["Missing data for required field."]) (validate (JDict entries)).
Proof.
  intros Hmiss. rewrite validate_dict. apply in_or_app. left.
  unfold load_fields. rewrite load_known_errors_cons, Hmiss. now left.
Qed.

(** Nor does a payload without an author. *)
Lemma validate_missing_author (entries : list (string * json)) :
  dict_get entries "author" = None ->
  In ("author", ["Missing data for required field."]) (validate (JDict entries)).
Proof.
  intros Hmiss. rewrite validate_dict. apply in_or_app. left.
  unfold load_fields. rewrite load_known_errors_cons.
  destruct (deserialize _ (dict_get entries "title")); [right |];
    rewrite load_known_errors_cons, Hmiss; now left.
Qed.

(** In a payload that validates, published_date and summary are missing
    or texts. *)
Lemma validate_ok_optional (entries : list (string * json)) :
  validate (JDict entries) = [] ->
  (dict_get entries "published_date" = None
   \/ exists s, dict_get entries "published_date" = Some (JStr s))
  /\ (dict_get entries "summary" = None
      \/ exists s, dict_get entries "summary" = Some (JStr s)).
Proof.
  intros Hok. rewrite validate_dict in Hok. apply app_eq_nil in Hok as [Hknown _].
  unfold load_fields in Hknown.
  rewrite load_known_errors_cons in Hknown.
  destruct (deserialize _ (dict_get entries "title")); [discriminate |].
  rewrite load_known_errors_cons in Hknown.
  destruct (deserialize _ (dict_get entries "author")); [discriminate |].
  rewrite load_known_errors_cons in Hknown.
  destruct (deserialize _ (dict_get entries "published_date")) as [m | vd] eqn:Ed;
    [discriminate |].
  rewrite load_known_errors_cons in Hknown.
  destruct (deserialize _ (dict_get entries "summary")) as [m | vs] eqn:Es; [discriminate |].
  split; eapply optional_field_text; eassumption.
Qed.

Lemma truthy_nonempty (e : errors) : truthy e = true <-> e <> [].
Proof. destruct e; simpl; split; congruence. Qed.

Lemma truthy_empty (e : errors) : truthy e = false <-> e = [].
Proof. destruct e; simpl; split; congruence. Qed.

Lemma truthy_In (e : errors) (x : string * list string) : In x e -> truthy e = true.
Proof. destruct e; [intros [] | reflexivity]. Qed.

End ValidateFacts.

(* ===================================================================== *)
(** ** The store and bulk creation *)
(* ===================================================================== *)

Module StoreFacts.

Lemma max_id_nonneg (rows : table) : 0 <= max_id rows.
Proof.
  induction rows as [|r rows IH]; simpl; [lia |].
  destruct (id r); lia.
Qed.

Lemma max_id_app (rows more : table) :
  max_id (rows ++ more)%list = Z.max (max_id rows) (max_id more).
Proof.
  induction rows as [|r rows IH]; simpl.
  - pose proof (max_id_nonneg more). lia.
  - rewrite IH. destruct (id r); lia.
Qed.

Lemma insert_row_with_id (b : Book) (rows : table) :
  insert_row b rows
  = (with_id (max_id rows + 1) b, (rows ++ [with_id (max_id rows + 1) b])%list).
Proof. reflexivity. Qed.

(** A batch insert appends the objects in order, numbered from the
    next free id on. *)
Lemma bulk_save_objects_numbered (books : list Book) (rows : table) :
  bulk_save_objects books rows = (rows ++ numbered (max_id rows + 1) books)%list.
Proof.
  revert rows. induction books as [|b books IH]; intros rows; simpl.
  - now rewrite app_nil_r.
  - rewrite IH, max_id_app. cbn [max_id fold_right with_id id].
    pose proof (max_id_nonneg rows).
    replace (Z.max (max_id rows) (Z.max (max_id rows + 1) 0)) with (max_id rows + 1) by lia.
    now rewrite <- app_assoc.
Qed.

Lemma numbered_length (k : Z) (books : list Book) :
  List.length (numbered k books) = List.length books.
Proof. revert k. induction books as [|b books IH]; intros k; simpl; [reflexivity | now rewrite IH]. Qed.

Lemma numbered_ids (k : Z) (books : list Book) :
  map id (numbered k books) = fresh_ids k (List.length books).
Proof.
  unfold fresh_ids. revert k. induction books as [| b books IH]; intros k; [reflexivity |].
  cbn [numbered map List.length seq with_id id]. rewrite IH. f_equal.
  - f_equal. lia.
  - rewrite <- seq_shift, map_map. apply map_ext. intros i. f_equal. lia.
Qed.

End StoreFacts.

Module BulkFacts.

Lemma failing_from (idx : Z) (x : json) (rest : list json) :
  List.filter (fun ix : Z * json => truthy (validate (snd ix))) (enumerate idx (x :: rest))
  = if truthy (validate x)
    then (idx, x) :: List.filter (fun ix => truthy (validate (snd ix))) (enumerate (idx + 1) rest)
    else List.filter (fun ix => truthy (validate (snd ix))) (enumerate (idx + 1) rest).
Proof. reflexivity. Qed.

(** The loop never raises: it reports the failing items with their index
    and errors, and builds one object, without id, for every other item. *)
Lemma bulk_loop_result (idx : Z) (books_data : list json) :
  exists new_books,
    bulk_loop idx books_data
    = inr (map (fun ix => bulk_error (fst ix) (validate (snd ix)))
               (List.filter (fun ix => truthy (validate (snd ix))) (enumerate idx books_data)),
           new_books)
    /\ Forall2 (fun d b => new_Book d = inr b)
               (List.filter (fun d => negb (truthy (validate d))) books_data) new_books
    /\ Forall (fun b => id b = None) new_books.
Proof.
  revert idx. induction books_data as [|d rest IH]; intros idx.
  - exists []. repeat split; constructor.
  - destruct (IH (idx + 1)) as [bs [Hloop [Hnew Hid]]].
    cbn [bulk_loop]. rewrite failing_from. cbn [List.filter].
    destruct (truthy (validate d)) eqn:Ed; cbn [negb].
    + exists bs. rewrite Hloop. repeat split; assumption.
    + apply ValidateFacts.truthy_empty in Ed.
      destruct (ValidateFacts.validate_ok_new_Book d Ed) as [b [Hb Hnone]].
      exists (b :: bs). rewrite Hb, Hloop. repeat split; now constructor.
Qed.

Lemma failing_items_nil (idx : Z) (books_data : list json) :
  Forall (fun d => validate d = []) books_data ->
  List.filter (fun ix : Z * json => truthy (validate (snd ix))) (enumerate idx books_data) = []
  /\ List.filter (fun d => negb (truthy (validate d))) books_data = books_data.
Proof.
  revert idx. induction books_data as [|d rest IH]; intros idx Hall; [now split |].
  inversion Hall as [|? ? Hd Hrest]; subst.
  destruct (IH (idx + 1) Hrest) as [E1 E2].
  rewrite failing_from. cbn [List.filter]. rewrite Hd. cbn [truthy negb].
  now rewrite E1, E2.
Qed.

Lemma failing_items_cons (idx : Z) (books_data : list json) :
  Exists (fun d => validate d <> []) books_data ->
  List.filter (fun ix : Z * json => truthy (validate (snd ix))) (enumerate idx books_data) <> [].
Proof.
  revert idx. induction books_data as [|d rest IH]; intros idx Hex.
  - inversion Hex.
  - rewrite failing_from. destruct (truthy (validate d)) eqn:Ed; [discriminate |].
    inversion Hex as [? ? Hd | ? ? Hrest]; subst.
    + apply ValidateFacts.truthy_empty in Ed. contradiction.
    + now apply IH.
Qed.

Lemma no_failing_all_kept (idx : Z) (books_data : list json) :
  List.filter (fun ix : Z * json => truthy (validate (snd ix))) (enumerate idx books_data) = [] ->
  List.filter (fun d => negb (truthy (validate d))) books_data = books_data.
Proof.
  revert idx. induction books_data as [|d rest IH]; intros idx Efail; [reflexivity |].
  rewrite failing_from in Efail. cbn [List.filter].
  destruct (truthy (validate d)); [discriminate |].
  cbn [negb]. f_equal. now apply (IH (idx + 1)).
Qed.

(** The entries the loop reports are the entries that must be reported. *)
Lemma reported_from (idx : Z) (books_data : list json) :
  map (fun ix => bulk_error (fst ix) (validate (snd ix)))
      (List.filter (fun ix => truthy (validate (snd ix))) (enumerate idx books_data))
  = flat_map (fun ix => match validate (snd ix) with
                        | [] => []
                        | field_errors => [failure_entry (fst ix) field_errors]
                        end)
             (enumerate idx books_data).
Proof.
  revert idx. induction books_data as [| d rest IH]; intros idx; [reflexivity |].
  rewrite failing_from. cbn [enumerate flat_map fst snd].
  destruct (validate d) as [| e errs] eqn:Ed; cbn [truthy].
  - apply IH.
  - cbn [map fst snd app]. rewrite Ed, IH. reflexivity.
Qed.

Lemma failing_items_reported (books_data : list json) :
  failing_items books_data = reported_failures books_data.
Proof. apply reported_from. Qed.

(** The object the constructor builds from a payload that validates holds
    what the payload sent. *)
Lemma new_Book_persists (d : json) (b : Book) (k : Z) :
  validate d = [] -> new_Book d = inr b -> persists d (with_id k b).
Proof.
  intros Hok Hnew. destruct (ValidateFacts.validate_not_dict d Hok) as [entries ->].
  destruct (ValidateFacts.validate_ok_optional entries Hok) as [Hd Hs].
  unfold new_Book, get_str, member in Hnew.
  destruct (dict_get entries "title") as [[| | | | t | |] |] eqn:Et; try discriminate Hnew.
  destruct (dict_get entries "author") as [[| | | | a | |] |] eqn:Ea; try discriminate Hnew.
  injection Hnew as <-. unfold persists, text_at, with_id, member.
  cbn [title author published_date summary].
  repeat split; try assumption.
  - destruct Hd as [-> | [s ->]]; reflexivity.
  - destruct Hs as [-> | [s ->]]; reflexivity.
Qed.

Lemma numbered_persists (books_data : list json) (new_books : list Book) (k : Z) :
  Forall (fun d => validate d = []) books_data ->
  Forall2 (fun d b => new_Book d = inr b) books_data new_books ->
  Forall2 persists books_data (numbered k new_books).
Proof.
  intros Hall Hnew. revert k. induction Hnew as [| d b ds bs Hd Hrest IH]; intros k.
  - constructor.
  - inversion Hall as [| ? ? Hvalid Hall']; subst. cbn [numbered]. constructor.
    + now apply new_Book_persists.
    + now apply IH.
Qed.

End BulkFacts.

(** C6.  A bulk create with any item that fails validation is rejected as
    a whole: it answers 400, the [errors] of the response hold one entry
    for every failing item and for no other, in the order of the request,
    each with the index of the item and the error messages of each of its
    fields, and the state is the one the request found, so no record is
    persisted.  When every item is valid it answers 201 and every item is
    persisted: the table grows by one row per item, in order, each row
    with the title, author, published_date and summary its item sent, under
    the next free ids. *)
Theorem bulk_create_all_or_nothing (books_data : list json) (st : State) :
  (Exists (fun d => validate d <> []) books_data ->
   reported_failures books_data <> []
   /\ BulkBookOperations_post books_data st
      = (Return (JDict [ ("status", JStr "error");
                         ("message", JStr "Validation errors occurred");
                         ("errors", JList (reported_failures books_data)) ],
                 400),
         st))
  /\ (Forall (fun d => validate d = []) books_data ->
      exists (rows : list Book) (body : json),
        Forall2 persists books_data rows
        /\ map id rows = fresh_ids (max_id (store st) + 1) (List.length books_data)
        /\ member body "status" = Some (JStr "success")
        /\ BulkBookOperations_post books_data st
           = (Return (body, 201),
              {| store := (store st ++ rows)%list; cache := cache st |})).
Proof.
  destruct (BulkFacts.bulk_loop_result 0 books_data) as [bs [Hloop [Hnew _]]].
  unfold BulkBookOperations_post. rewrite Hloop. split.
  - intros Hex. apply (BulkFacts.failing_items_cons 0) in Hex.
    rewrite <- BulkFacts.failing_items_reported. unfold failing_items.
    destruct (List.filter _ (enumerate 0 books_data)); [contradiction |].
    split; [discriminate | reflexivity].
  - intros Hall. destruct (BulkFacts.failing_items_nil 0 books_data Hall) as [E1 E2].
    rewrite E1. rewrite E2 in Hnew. cbn [map try_except].
    exists (numbered (max_id (store st) + 1) bs).
    exists (JDict [ ("status", JStr "success");
                    ("message", JStr ("Successfully created "
                                      ++ Py.str_int (Z.of_nat (List.length bs)) ++ " books"));
                    ("data", dump_many bs) ]).
    split; [now apply BulkFacts.numbered_persists |].
    split; [| split; [reflexivity |]].
    + rewrite StoreFacts.numbered_ids. f_equal. symmetry.
      eapply Forall2_length. eassumption.
    + now rewrite StoreFacts.bulk_save_objects_numbered.
Qed.

Lemma bulk_create_all_or_nothing_witness :
  (reported_failures [Samples.book_payload "Tom" "A"; Samples.book_payload "" "B"] <> []
   /\ BulkBookOperations_post
        [Samples.book_payload "Tom" "A"; Samples.book_payload "" "B"] Samples.one_book
      = (Return (JDict [ ("status", JStr "error");
                         ("message", JStr "Validation errors occurred");
                         ("errors",
                          JList [JDict [ ("index", JInt 1);
                                         ("errors",
                                          JDict [("title",
                                                  JList [JStr "Length must be between 1 and 100."])])
                                       ]]) ],
                 400),
         Samples.one_book))
  /\ exists (rows : list Book) (body : json),
       Forall2 persists [Samples.book_payload "Tom" "A"; Samples.book_payload "Amy" "B"] rows
       /\ map id rows = [Some 2; Some 3]
       /\ member body "status" = Some (JStr "success")
       /\ BulkBookOperations_post
            [Samples.book_payload "Tom" "A"; Samples.book_payload "Amy" "B"] Samples.one_book
          = (Return (body, 201),
             {| store := (store Samples.one_book ++ rows)%list;
                cache := cache Samples.one_book |}).
Proof.
  split.
  - apply (proj1 (bulk_create_all_or_nothing
                    [Samples.book_payload "Tom" "A"; Samples.book_payload "" "B"]
                    Samples.one_book)).
    apply Exists_cons_tl, Exists_cons_hd. vm_compute. discriminate.
  - apply (proj2 (bulk_create_all_or_nothing
                    [Samples.book_payload "Tom" "A"; Samples.book_payload "Amy" "B"]
                    Samples.one_book)).
    repeat constructor.
Defined.

(** C10.  The [data] of the 201 response of a bulk create holds one entry
    per item, each with [id] null, although the rows written for them carry
    the ids the store assigned; the [data] of the 201 response of a single
    create carries the id of the row that was written. *)
Theorem bulk_create_response_lacks_ids :
  (forall (books_data : list json) (st st' : State) (rv : response),
      BulkBookOperations_post books_data st = (Return rv, st') ->
      status rv = 201 ->
      exists new_books : list Book,
        member (body rv) "data" = Some (JList (map dump new_books))
        /\ List.length new_books = List.length books_data
        /\ Forall (fun b => member (dump b) "id" = Some JNull) new_books
        /\ store st' = (store st ++ numbered (max_id (store st) + 1) new_books)%list)
  /\ (forall (data : json) (st st' : State) (rv : response),
        BookList_post data st = (Return rv, st') ->
        exists new_book : Book,
          member (body rv) "data" = Some (dump new_book)
          /\ member (dump new_book) "id" = Some (JInt (max_id (store st) + 1))
          /\ id new_book = Some (max_id (store st) + 1)
          /\ store st' = (store st ++ [new_book])%list).
Proof.
  split.
  - intros books_data st st' rv Hpost Hstatus.
    destruct (BulkFacts.bulk_loop_result 0 books_data) as [bs [Hloop [Hnew Hid]]].
    unfold BulkBookOperations_post in Hpost. rewrite Hloop in Hpost.
    destruct (List.filter _ (enumerate 0 books_data)) as [|bad more] eqn:Efail.
    + cbn [map try_except] in Hpost. injection Hpost as <- <-.
      exists bs. repeat split.
      * rewrite (BulkFacts.no_failing_all_kept 0 books_data Efail) in Hnew.
        symmetry. eapply Forall2_length. eassumption.
      * eapply Forall_impl; [exact Hid |]. intros b Hb. cbn. now rewrite Hb.
      * cbn [store]. apply StoreFacts.bulk_save_objects_numbered.
    + cbn [map try_except] in Hpost. injection Hpost as <- <-.
      discriminate Hstatus.
  - intros data st st' rv Hpost. unfold BookList_post in Hpost.
    destruct (truthy (validate data)) eqn:Ev; [discriminate Hpost |].
    apply ValidateFacts.truthy_empty in Ev.
    destruct (ValidateFacts.validate_ok_new_Book data Ev) as [b [Hb _]].
    rewrite Hb in Hpost. unfold add_commit in Hpost.
    rewrite StoreFacts.insert_row_with_id in Hpost.
    cbn [try_except] in Hpost. injection Hpost as <- <-.
    exists (with_id (max_id (store st) + 1) b). repeat split.
Qed.

Lemma bulk_create_response_lacks_ids_witness :
  (exists new_books : list Book,
      member (body (JDict [ ("status", JStr "success");
                            ("message", JStr "Successfully created 1 books");
                            ("data", JList [JDict [ ("id", JNull); ("title", JStr "Amy");
                                                    ("author", JStr "B");
                                                    ("published_date", JNull);
                                                    ("summary", JNull) ]]) ],
                    201)) "data"
      = Some (JList (map dump new_books))
      /\ List.length new_books = List.length [Samples.book_payload "Amy" "B"]
      /\ Forall (fun b => member (dump b) "id" = Some JNull) new_books
      /\ [Samples.tom; Samples.amy]
         = (store Samples.one_book
            ++ numbered (max_id (store Samples.one_book) + 1) new_books)%list)
  /\ (exists new_book : Book,
         member (body (JDict [ ("status", JStr "success");
                               ("message", JStr "Book created successfully");
                               ("data", dump Samples.amy) ],
                       201)) "data"
         = Some (dump new_book)
         /\ member (dump new_book) "id" = Some (JInt (max_id (store Samples.one_book) + 1))
         /\ id new_book = Some (max_id (store Samples.one_book) + 1)
         /\ [Samples.tom; Samples.amy] = (store Samples.one_book ++ [new_book])%list).
Proof.
  split.
  - apply (proj1 bulk_create_response_lacks_ids
             [Samples.book_payload "Amy" "B"] Samples.one_book
             {| store := [Samples.tom; Samples.amy]; cache := ∅ |}).
    + vm_compute. reflexivity.
    + reflexivity.
  - apply (proj2 bulk_create_response_lacks_ids
             (Samples.book_payload "Amy" "B") Samples.one_book
             {| store := [Samples.tom; Samples.amy]; cache := ∅ |}).
    vm_compute. reflexivity.
Defined.

(* ===================================================================== *)
(** ** Errors *)
(* ===================================================================== *)

(** C9, as the code has it.  [validate] always returns: loading yields a
    dict and [validate] reports no error, or loading raises with a dict of
    field errors that is not empty and [validate] returns that dict.  A key
    other than title, author, published_date and summary is not ignored: it
    is reported as 'Unknown field.', and a create with such a payload is
    refused with a 400 [ValidationError], the state left as it was. *)
Theorem validate_reports_unknown_fields :
  (forall data : json,
      (exists vals, do_load data = inr vals /\ validate data = [])
      \/ (exists errs, do_load data = inl errs /\ errs <> [] /\ validate data = errs))
  /\ (forall (entries : list (string * json)) (k : string) (v : json) (st : State),
        In (k, v) entries ->
        ~ In k load_field_names ->
        In (k, ["Unknown field."]) (validate (JDict entries))
        /\ BookList_post (JDict entries) st
           = (Raise {| message := Py.str_errors (validate (JDict entries));
                       status_code := 400 |},
              st)).
Proof.
  split; [exact ValidateFacts.validate_do_load |].
  intros entries k v st Hin Hunknown.
  pose proof (ValidateFacts.unknown_field_reported entries k v Hin Hunknown) as Hrep.
  split; [assumption |].
  unfold BookList_post. now rewrite (ValidateFacts.truthy_In _ _ Hrep).
Qed.

Lemma validate_reports_unknown_fields_witness :
  In ("extra", ["Unknown field."]) (validate Samples.with_extra_field)
  /\ BookList_post Samples.with_extra_field Samples.empty_state
     = (Raise {| message := Py.str_errors (validate Samples.with_extra_field);
                 status_code := 400 |},
        Samples.empty_state).
Proof.
  apply (proj2 validate_reports_unknown_fields
           [("title", JStr "T"); ("author", JStr "A"); ("extra", JInt 1)]
           "extra" (JInt 1) Samples.empty_state).
  - simpl. right. right. left. reflexivity.
  - simpl. intros [H | [H | [H | [H | H]]]]; try discriminate H. exact H.
Defined.

(** C9, as the specification states it, fails on
    [{"title": "T", "author": "A", "extra": 1}]: the unknown field is
    reported, and the create answers 400 and stores nothing. *)
Lemma create_with_unknown_field_is_rejected :
  validate Samples.with_extra_field = [("extra", ["Unknown field."])]
  /\ respond (fst (BookList_post Samples.with_extra_field Samples.empty_state))
     = (JDict [("error", JStr "{'extra': ['Unknown field.']}")], 400)
  /\ snd (BookList_post Samples.with_extra_field Samples.empty_state) = Samples.empty_state.
Proof. repeat split. Qed.

(** C2: the code against the claim.  An update whose payload leaves out
    the title or the author fails validation, whatever else it supplies:
    the missing field is reported as required, the handler raises a 400
    [ValidationError], and the book stays as it was. *)
Theorem update_without_required_field_is_rejected
  (book_id : Z) (book : Book) (entries : list (string * json)) (st : State) :
  get_or_404 book_id (store st) = Some book ->
  dict_get entries "title" = None \/ dict_get entries "author" = None ->
  BookResource_put book_id (JDict entries) st
  = (Raise {| message := Py.str_errors (validate (JDict entries)); status_code := 400 |}, st)
  /\ (dict_get entries "title" = None ->
      In ("title", ["Missing data for required field."]) (validate (JDict entries)))
  /\ (dict_get entries "author" = None ->
      In ("author", ["Missing data for required field."]) (validate (JDict entries))).
Proof.
  intros Hfound Hmiss.
  split; [| split; [apply ValidateFacts.validate_missing_title
                   | apply ValidateFacts.validate_missing_author]].
  unfold BookResource_put. rewrite Hfound.
  destruct Hmiss as [Ht | Ha].
  - now rewrite (ValidateFacts.truthy_In _ _ (ValidateFacts.validate_missing_title entries Ht)).
  - now rewrite (ValidateFacts.truthy_In _ _ (ValidateFacts.validate_missing_author entries Ha)).
Qed.

Lemma update_without_required_field_is_rejected_witness :
  respond (fst (BookResource_put 1 Samples.author_only Samples.one_book))
  = (JDict [("error", JStr "{'title': ['Missing data for required field.']}")], 400)
  /\ snd (BookResource_put 1 Samples.author_only Samples.one_book) = Samples.one_book.
Proof.
  destruct (update_without_required_field_is_rejected
              1 Samples.tom [("author", JStr "New")] Samples.one_book
              eq_refl (or_introl eq_refl)) as [Hput _].
  change (JDict [("author", JStr "New")]) with Samples.author_only in Hput.
  rewrite Hput. split; reflexivity.
Defined.

(** C1: the code against the claim.  For an id that is not in the store,
    the [NotFound] of [get_or_404] is caught by the handler's own
    [except Exception] and raised again as a [ValidationError], so update
    and delete, and get-by-id when nothing is cached under its key, answer
    400 with the text of the 404 as the error message. *)
Theorem missing_id_is_reported_as_400 (now book_id : Z) (data : json) (st : State) :
  get_or_404 book_id (store st) = None ->
  cache_get now (cache st) (make_cache_key "book") = None ->
  let not_found_as_400 := (JDict [("error", JStr (Errors.str NotFound))], 400) in
  respond (fst (BookResource_get now book_id st)) = not_found_as_400
  /\ respond (fst (BookResource_put book_id data st)) = not_found_as_400
  /\ respond (fst (BookResource_delete book_id st)) = not_found_as_400.
Proof.
  intros Hmissing Hmiss. repeat split.
  - unfold BookResource_get. rewrite cached_miss by assumption.
    unfold BookResource_get_body. now rewrite Hmissing.
  - unfold BookResource_put. now rewrite Hmissing.
  - unfold BookResource_delete. now rewrite Hmissing.
Qed.

Lemma missing_id_is_reported_as_400_witness :
  respond (fst (BookResource_get 0 999 Samples.one_book))
  = (JDict [("error", JStr (Errors.str NotFound))], 400)
  /\ respond (fst (BookResource_put 999 (Samples.book_payload "T" "A") Samples.one_book))
     = (JDict [("error", JStr (Errors.str NotFound))], 400)
  /\ respond (fst (BookResource_delete 999 Samples.one_book))
     = (JDict [("error", JStr (Errors.str NotFound))], 400).
Proof.
  apply (missing_id_is_reported_as_400 0 999 (Samples.book_payload "T" "A") Samples.one_book).
  - reflexivity.
  - vm_compute. reflexivity.
Defined.

(* ===================================================================== *)
(** ** The cache *)
(* ===================================================================== *)

Module CacheFacts.

Lemma pretty_N_go_nonempty (x : N) (s : string) : s <> "" -> pretty_N_go x s <> "".
Proof.
  revert s. induction (N.lt_wf_0 x) as [x _ IH]; intros s Hs.
  destruct (decide (x = 0)%N) as [-> | Hx].
  - now rewrite pretty_N_go_0.
  - rewrite pretty_N_go_step by lia. apply IH; [apply N.div_lt; lia | discriminate].
Qed.

(** The decimal text of an integer is never empty. *)
Lemma str_int_nonempty (k : Z) : Py.str_int k <> "".
Proof.
  unfold Py.str_int, pretty, pretty_Z. destruct k as [| p | p]; [discriminate | | discriminate].
  unfold pretty, pretty_positive, pretty, pretty_N.
  destruct (decide (N.pos p = 0%N)); [discriminate |].
  rewrite pretty_N_go_step by lia. apply pretty_N_go_nonempty. discriminate.
Qed.

(** The key of a single book response is none of the keys an update or a
    delete removes. *)
Lemma book_key_kept (k : Z) : make_cache_key "book" <> "book" ++ Py.str_int k.
Proof.
  unfold make_cache_key. intros H.
  apply (str_int_nonempty k). simpl in H. now injection H.
Qed.

(** Nor is the key of any list response. *)
Lemma list_key_kept (hash_method : string -> string) (args : list (string * string)) (k : Z) :
  make_cache_key_query_string hash_method "/books" args <> "books"
  /\ make_cache_key_query_string hash_method "/books" args <> "book" ++ Py.str_int k.
Proof. unfold make_cache_key_query_string. simpl. split; discriminate. Qed.

Lemma invalidate_lookup (book_id : Z) (c : gmap string (Z * response)) (key : string) :
  key <> "book" ++ Py.str_int book_id ->
  key <> "books" ->
  invalidate book_id c !! key = c !! key.
Proof.
  intros H1 H2. unfold invalidate, cache_delete.
  rewrite lookup_delete_ne by congruence. now rewrite lookup_delete_ne by congruence.
Qed.

Lemma delete_book_keys_lookup (book_ids : list Z) (c : gmap string (Z * response))
  (key : string) :
  (forall k, key <> "book" ++ Py.str_int k) ->
  RoutesV1.delete_book_keys book_ids c !! key = c !! key.
Proof.
  intros Hbook. revert c. induction book_ids as [| k ids IH]; intros c; [reflexivity |].
  cbn [RoutesV1.delete_book_keys fold_left]. fold (RoutesV1.delete_book_keys ids).
  rewrite IH. unfold cache_delete. apply lookup_delete_ne. specialize (Hbook k). congruence.
Qed.

(** No write, in either copy of the routes, removes an entry whose key is
    neither ['books'] nor of the form [f'book{id}']. *)
Lemma write_keeps_entry (rs : route_set) (hash_method : string -> string) (w : request)
  (st : State) (key : string) :
  is_write w = true ->
  key <> "books" ->
  (forall k, key <> "book" ++ Py.str_int k) ->
  cache (snd (route_in rs hash_method w st)) !! key = cache st !! key.
Proof.
  intros Hw Hlist Hbook.
  assert (Hdel : forall c : gmap string (Z * response), cache_delete c "books" !! key = c !! key).
  { intros c. unfold cache_delete. apply lookup_delete_ne. congruence. }
  destruct w as [| data | | book_id data | book_id | books_data | ids];
    try discriminate Hw; destruct rs; cbn [route_in route RoutesV1.route].
  - unfold BookList_post.
    destruct (truthy (validate data)); [reflexivity |].
    destruct (new_Book data); [reflexivity |].
    unfold add_commit. now rewrite StoreFacts.insert_row_with_id.
  - unfold RoutesV1.BookList_post.
    destruct (truthy (validate data)); [reflexivity |].
    destruct (new_Book data); [reflexivity |].
    unfold add_commit. rewrite StoreFacts.insert_row_with_id. cbn. apply Hdel.
  - unfold BookResource_put.
    destruct (get_or_404 book_id (store st)); [| reflexivity].
    destruct (truthy (validate data)); [reflexivity |].
    cbn. now apply invalidate_lookup.
  - unfold BookResource_put.
    destruct (get_or_404 book_id (store st)); [| reflexivity].
    destruct (truthy (validate data)); [reflexivity |].
    cbn. now apply invalidate_lookup.
  - unfold BookResource_delete.
    destruct (get_or_404 book_id (store st)); [| reflexivity].
    cbn. now apply invalidate_lookup.
  - unfold BookResource_delete.
    destruct (get_or_404 book_id (store st)); [| reflexivity].
    cbn. now apply invalidate_lookup.
  - unfold BulkBookOperations_post.
    destruct (bulk_loop 0 books_data) as [e | [[| bad more] new_books]]; reflexivity.
  - unfold RoutesV1.BulkBookOperations_post.
    destruct (bulk_loop 0 books_data) as [e | [[| bad more] new_books]]; try reflexivity.
    cbn. apply Hdel.
  - unfold BulkBookOperations_delete. destruct ids as [| k ids]; [reflexivity |].
    destruct (delete_in (k :: ids) (store st)) as [[n rows] |]; reflexivity.
  - unfold RoutesV1.BulkBookOperations_delete. destruct ids as [| k ids]; [reflexivity |].
    destruct (delete_in (k :: ids) (store st)) as [[n rows] |]; [| reflexivity].
    cbn [try_except snd cache].
    rewrite delete_book_keys_lookup by assumption. apply Hdel.
Qed.

Lemma write_keeps_cache_get (rs : route_set) (hash_method : string -> string) (w : request)
  (st : State) (now : Z) (key : string) :
  is_write w = true ->
  key <> "books" ->
  (forall k, key <> "book" ++ Py.str_int k) ->
  cache_get now (cache (snd (route_in rs hash_method w st))) key = cache_get now (cache st) key.
Proof.
  intros Hw Hlist Hbook. unfold cache_get.
  now rewrite (write_keeps_entry rs hash_method w st key Hw Hlist Hbook).
Qed.

Lemma cached_hit (timeout now : Z) (key : string) (f : State -> outcome) (st : State)
  (rv : response) :
  cache_get now (cache st) key = Some rv ->
  cached timeout key now f st = (Return rv, st).
Proof. intros Hhit. unfold cached. now rewrite Hhit. Qed.

(** What a computed response leaves in the cache. *)
Lemma cached_stores (timeout now later : Z) (key : string) (f : State -> outcome)
  (st : State) (rv : response) :
  cache_get now (cache st) key = None ->
  f st = Return rv ->
  later < now + timeout ->
  cache_get later (cache (snd (cached timeout key now f st))) key = Some rv.
Proof.
  intros Hmiss Hf Hlive. unfold cached. rewrite Hmiss, Hf. cbn [snd cache].
  unfold cache_get, cache_set. rewrite lookup_insert_eq.
  destruct (later <? now + timeout) eqn:E; [reflexivity |].
  apply Z.ltb_ge in E. lia.
Qed.

End CacheFacts.

(** C3: the code against the claim.  No write invalidates a cached read,
    in [app.py] or in [api/v1/routes.py].  The create and bulk handlers of
    [app.py] never touch the cache, and the keys the other handlers
    remove, ['books'] and [f'book{id}'], are not keys any response is
    cached under; so whatever payload a list request or a get-by-id has
    live in the cache before a create, update, delete or bulk request is
    still what the same read returns after it. *)
Theorem writes_leave_cached_reads_in_place
  (rs : route_set) (hash_method : string -> string) (w : request) (st : State) (now : Z) :
  is_write w = true ->
  (forall (req : ListRequest) (rv : response),
      cache_get now (cache st)
        (make_cache_key_query_string hash_method "/books" (query_args req)) = Some rv ->
      fst (BookList_get hash_method now req (snd (route_in rs hash_method w st))) = Return rv)
  /\ (forall (book_id : Z) (rv : response),
        cache_get now (cache st) (make_cache_key "book") = Some rv ->
        fst (BookResource_get now book_id (snd (route_in rs hash_method w st))) = Return rv).
Proof.
  intros Hw. split.
  - intros req rv Hlive. unfold BookList_get.
    rewrite (CacheFacts.cached_hit _ _ _ _ _ rv); [reflexivity |].
    rewrite CacheFacts.write_keeps_cache_get; try assumption.
    + apply (CacheFacts.list_key_kept hash_method (query_args req) 0).
    + intros k. apply (CacheFacts.list_key_kept hash_method (query_args req) k).
  - intros book_id rv Hlive. unfold BookResource_get.
    rewrite (CacheFacts.cached_hit _ _ _ _ _ rv); [reflexivity |].
    rewrite CacheFacts.write_keeps_cache_get; try assumption.
    + discriminate.
    + apply CacheFacts.book_key_kept.
Qed.

Lemma writes_leave_cached_reads_in_place_witness :
  let listed := snd (BookList_get Samples.plain_digest 0 Samples.list_all Samples.empty_state) in
  let created := snd (route Samples.plain_digest (POST_books (Samples.book_payload "T" "A"))
                        listed) in
  store created
  = [{| id := Some 1; title := "T"; author := "A"; published_date := None; summary := None |}]
  /\ fst (BookList_get Samples.plain_digest 1 Samples.list_all created)
     = Return (JDict [ ("status", JStr "success");
                       ("data", JList []);
                       ("page", JInt 1);
                       ("per_page", JInt 10);
                       ("total_pages", JInt 0);
                       ("total_items", JInt 0);
                       ("search_query", JNull) ],
               200).
Proof.
  split; [reflexivity |].
  apply (proj1 (writes_leave_cached_reads_in_place
                  app_routes Samples.plain_digest (POST_books (Samples.book_payload "T" "A"))
                  (snd (BookList_get Samples.plain_digest 0 Samples.list_all Samples.empty_state))
                  1 eq_refl)
           Samples.list_all).
  vm_compute. reflexivity.
Defined.

(** C4: the code against the claim.  Every get-by-id is cached under the
    one key ['book'].  Once the response for a stored book has been
    computed and cached, a get-by-id for any id, another book's or an
    unknown one, returns that same payload until the entry expires. *)
Theorem get_by_id_returns_payload_of_other_id
  (now later id1 id2 : Z) (book : Book) (st : State) :
  cache_get now (cache st) (make_cache_key "book") = None ->
  get_or_404 id1 (store st) = Some book ->
  later < now + 300 ->
  fst (BookResource_get later id2 (snd (BookResource_get now id1 st)))
  = Return (JDict [("status", JStr "success"); ("data", dump book)], 200).
Proof.
  intros Hmiss Hfound Hlive. unfold BookResource_get at 1.
  rewrite (CacheFacts.cached_hit _ _ _ _ _
             (JDict [("status", JStr "success"); ("data", dump book)], 200));
    [reflexivity |].
  unfold BookResource_get. apply CacheFacts.cached_stores; try assumption.
  unfold BookResource_get_body. now rewrite Hfound.
Qed.

Lemma get_by_id_returns_payload_of_other_id_witness :
  fst (BookResource_get 10 2 (snd (BookResource_get 0 1 Samples.two_books)))
  = Return (JDict [("status", JStr "success"); ("data", dump Samples.tom)], 200).
Proof.
  apply (get_by_id_returns_payload_of_other_id 0 10 1 2 Samples.tom Samples.two_books).
  - vm_compute. reflexivity.
  - reflexivity.
  - lia.
Defined.

(* ===================================================================== *)
(** ** The error envelope *)
(* ===================================================================== *)

Module EnvelopeFacts.






End EnvelopeFacts.




(* ===================================================================== *)
(** ** Updates, and the repository's tests run on the model *)
(* ===================================================================== *)

Module UpdateFacts.

(** What an update does when its payload validates: the fields the payload
    holds are overwritten, the optional fields it leaves out keep their
    values, and the id stays. *)
Lemma update_merges_supplied_fields
  (book_id : Z) (book : Book) (data : json) (st : State) :
  get_or_404 book_id (store st) = Some book ->
  validate data = [] ->
  exists (t a : string) (updated : Book),
    get_str data "title" = Some t
    /\ get_str data "author" = Some a
    /\ updated = {| id := id book; title := t; author := a;
                    published_date := match get_str data "published_date" with
                                      | Some d => Some d
                                      | None => published_date book
                                      end;
                    summary := match get_str data "summary" with
                               | Some text => Some text
                               | None => summary book
                               end |}
    /\ BookResource_put book_id data st
       = (Return (JDict [ ("status", JStr "success");
                          ("message", JStr "Book updated successfully");
                          ("data", dump updated) ],
                  200),
          {| store := update_row book_id updated (store st);
             cache := invalidate book_id (cache st) |}).
Proof.
  intros Hfound Hok.
  destruct (ValidateFacts.validate_ok_required data Hok) as [entries [t [a [-> [Et Ea]]]]].
  assert (Ht : get_str (JDict entries) "title" = Some t).
  { unfold get_str, member. now rewrite Et. }
  assert (Ha : get_str (JDict entries) "author" = Some a).
  { unfold get_str, member. now rewrite Ea. }
  exists t, a. eexists. repeat split; try assumption.
  unfold BookResource_put. rewrite Hfound, Hok, Ht, Ha. reflexivity.
Qed.

End UpdateFacts.

Module TestBooks.

Import Samples.

(** [test_get_books]. *)
Example test_get_books :
  exists data rest,
    respond (fst (BookList_get plain_digest 0 list_all empty_state))
    = (JDict (("status", JStr "success") :: ("data", data) :: rest), 200).
Proof. do 2 eexists. reflexivity. Qed.

(** [test_create_book]. *)
Example test_create_book :
  let rv := respond (fst (BookList_post test_create_data empty_state)) in
  status rv = 201
  /\ member (body rv) "status" = Some (JStr "success")
  /\ (exists data, member (body rv) "data" = Some data
                   /\ member data "title" = Some (JStr "New Test Book")
                   /\ member data "author" = Some (JStr "New Test Author")).
Proof. repeat split. eexists. repeat split. Qed.

(** [test_update_book]: the payload holds both required fields. *)
Example test_update_book :
  let rv := respond (fst (BookResource_put 1 test_update_data with_sample_book)) in
  status rv = 200
  /\ member (body rv) "status" = Some (JStr "success")
  /\ (exists data, member (body rv) "data" = Some data
                   /\ member data "title" = Some (JStr "Updated Book")
                   /\ member data "author" = Some (JStr "Updated Author")
                   /\ member data "summary" = Some (JStr "Test Summary")).
Proof. repeat split. eexists. repeat split. Qed.

(** [test_delete_book]: the delete answers 200; the lookup that follows
    answers 400, where the test expects 404. *)
Example test_delete_book :
  let '(deleted, st) := BookResource_delete 1 with_sample_book in
  status (respond deleted) = 200
  /\ member (body (respond deleted)) "status" = Some (JStr "success")
  /\ store st = []
  /\ status (respond (fst (BookResource_get 0 1 st))) = 400.
Proof. repeat split. Qed.

(** [test_create_book_invalid_data]. *)
Example test_create_book_invalid_data :
  let rv := respond (fst (BookList_post test_invalid_data empty_state)) in
  status rv = 400
  /\ member (body rv) "error"
     = Some (JStr "{'title': ['Length must be between 1 and 100.']}").
Proof. repeat split. Qed.

End TestBooks.

(* ===================================================================== *)
(** ** Rows by id: create, update and delete, then look up *)
(* ===================================================================== *)

Import Props.

Module RowFacts.

Lemma has_id_above_max (k : Z) (rows : table) :
  max_id rows < k -> forallb (fun r => negb (has_id k r)) rows = true.
Proof.
  induction rows as [| r rows IH]; intros Hk; [reflexivity |].
  cbn [max_id fold_right] in Hk. fold (max_id rows) in Hk.
  cbn [forallb]. unfold has_id at 1. destruct (id r) as [j |].
  - rewrite IH by lia. destruct (j =? k) eqn:E; [apply Z.eqb_eq in E; lia | reflexivity].
  - rewrite IH by lia. reflexivity.
Qed.

Lemma find_none_forallb (k : Z) (rows : table) :
  forallb (fun r => negb (has_id k r)) rows = true -> find (has_id k) rows = None.
Proof.
  induction rows as [| r rows IH]; [reflexivity |].
  cbn [forallb find]. intros H. apply andb_prop in H as [Hr Hrest].
  apply negb_true_iff in Hr. rewrite Hr. now apply IH.
Qed.

Lemma find_app_none (k : Z) (rows more : table) :
  find (has_id k) rows = None ->
  find (has_id k) (rows ++ more)%list = find (has_id k) more.
Proof.
  induction rows as [| r rows IH]; [reflexivity |].
  cbn [find app]. destruct (has_id k r); [discriminate | exact IH].
Qed.

(** The row an insert appends is the one its id finds. *)
Lemma get_after_insert (b : Book) (rows : table) :
  get_or_404 (max_id rows + 1) (snd (insert_row b rows)) = Some (fst (insert_row b rows)).
Proof.
  rewrite StoreFacts.insert_row_with_id. cbn [fst snd]. unfold get_or_404.
  rewrite find_app_none.
  - cbn [find]. unfold has_id, with_id. cbn [id]. now rewrite Z.eqb_refl.
  - apply find_none_forallb, has_id_above_max. lia.
Qed.

Lemma found_has_id (k : Z) (rows : table) (b : Book) :
  get_or_404 k rows = Some b -> has_id k b = true /\ In b rows /\ id b = Some k.
Proof.
  unfold get_or_404. intros H. apply find_some in H as [Hin Hid].
  repeat split; try assumption.
  unfold has_id in Hid. destruct (id b) as [j |]; [| discriminate].
  apply Z.eqb_eq in Hid. now subst.
Qed.

Lemma has_id_other (k k' : Z) (b : Book) :
  k' <> k -> has_id k b = true -> has_id k' b = false.
Proof.
  unfold has_id. destruct (id b) as [j |]; [| discriminate].
  intros Hne Hk. apply Z.eqb_eq in Hk. subst j. now apply Z.eqb_neq.
Qed.

(** After an update the id finds the new version of the row. *)
Lemma get_after_update (k : Z) (b updated : Book) (rows : table) :
  get_or_404 k rows = Some b ->
  has_id k updated = true ->
  get_or_404 k (update_row k updated rows) = Some updated.
Proof.
  unfold get_or_404, update_row. intros Hfound Hid.
  induction rows as [| r rows IH]; [discriminate |].
  cbn [find map] in *. destruct (has_id k r) eqn:Er.
  - now rewrite Hid.
  - rewrite Er. now apply IH.
Qed.

(** And every other id finds what it found before. *)
Lemma get_other_after_update (k k' : Z) (updated : Book) (rows : table) :
  k' <> k ->
  has_id k updated = true ->
  get_or_404 k' (update_row k updated rows) = get_or_404 k' rows.
Proof.
  unfold get_or_404, update_row. intros Hne Hid.
  induction rows as [| r rows IH]; [reflexivity |].
  cbn [find map]. destruct (has_id k r) eqn:Er.
  - rewrite (has_id_other k k' updated Hne Hid), (has_id_other k k' r Hne Er). exact IH.
  - destruct (has_id k' r); [reflexivity | exact IH].
Qed.

Lemma update_row_twice (k : Z) (updated : Book) (rows : table) :
  has_id k updated = true ->
  update_row k updated (update_row k updated rows) = update_row k updated rows.
Proof.
  intros Hid. unfold update_row. rewrite map_map. apply map_ext. intros r.
  destruct (has_id k r) eqn:Er; [now rewrite Hid | now rewrite Er].
Qed.

Lemma get_after_delete (k : Z) (rows : table) :
  get_or_404 k (delete_row k rows) = None.
Proof.
  unfold get_or_404, delete_row. induction rows as [| r rows IH]; [reflexivity |].
  cbn [List.filter]. destruct (has_id k r) eqn:Er; cbn [negb]; [exact IH |].
  cbn [find]. now rewrite Er.
Qed.

Lemma get_other_after_delete (k k' : Z) (rows : table) :
  k' <> k -> get_or_404 k' (delete_row k rows) = get_or_404 k' rows.
Proof.
  unfold get_or_404, delete_row. intros Hne. induction rows as [| r rows IH]; [reflexivity |].
  cbn [List.filter find]. destruct (has_id k r) eqn:Er; cbn [negb].
  - now rewrite (has_id_other k k' r Hne Er).
  - cbn [find]. destruct (has_id k' r); [reflexivity | exact IH].
Qed.

(** A second merge of the same payload changes nothing. *)
Lemma merged_twice (book : Book) (data : json) :
  merged (merged book data) data = merged book data.
Proof.
  unfold merged. cbn [id title author published_date summary]. f_equal.
  - now destruct (get_str data "title").
  - now destruct (get_str data "author").
  - now destruct (get_str data "published_date").
  - now destruct (get_str data "summary").
Qed.

Lemma put_valid (book_id : Z) (book : Book) (data : json) (st : State) :
  get_or_404 book_id (store st) = Some book ->
  validate data = [] ->
  BookResource_put book_id data st
  = (Return (updated_response (merged book data)),
     {| store := update_row book_id (merged book data) (store st);
        cache := invalidate book_id (cache st) |}).
Proof.
  intros Hfound Hok. unfold BookResource_put. now rewrite Hfound, Hok.
Qed.

End RowFacts.

(** X1.  A create that succeeds can be read back: a get-by-id for the id
    of the response, computed from the store, answers 200 with the very
    [data] the create returned, and that book carries the title, author,
    published_date and summary of the payload. *)
Theorem create_then_get_returns_the_book
  (data : json) (st st' : State) (rv : response) (now : Z) :
  BookList_post data st = (Return rv, st') ->
  cache_get now (cache st') (make_cache_key "book") = None ->
  exists (new_book : Book) (k : Z),
    id new_book = Some k
    /\ rv = (JDict [ ("status", JStr "success");
                     ("message", JStr "Book created successfully");
                     ("data", dump new_book) ],
             201)
    /\ get_str data "title" = Some (title new_book)
    /\ get_str data "author" = Some (author new_book)
    /\ get_str data "published_date" = published_date new_book
    /\ get_str data "summary" = summary new_book
    /\ fst (BookResource_get now k st') = Return (found_response new_book).
Proof.
  intros Hpost Hmiss. unfold BookList_post in Hpost.
  destruct (truthy (validate data)) eqn:Ev; [discriminate Hpost |].
  unfold new_Book in Hpost.
  destruct (get_str data "title") as [t |] eqn:Et; [| discriminate Hpost].
  destruct (get_str data "author") as [a |] eqn:Ea; [| discriminate Hpost].
  unfold add_commit in Hpost.
  match type of Hpost with
  | context [insert_row ?b ?rows] =>
      pose proof (RowFacts.get_after_insert b rows) as Hget;
      rewrite StoreFacts.insert_row_with_id in Hpost, Hget
  end.
  cbn [try_except fst snd] in Hpost, Hget. injection Hpost as <- <-.
  exists (with_id (max_id (store st) + 1)
            {| id := None; title := t; author := a;
               published_date := get_str data "published_date";
               summary := get_str data "summary" |}).
  exists (max_id (store st) + 1).
  split; [reflexivity |]. split; [reflexivity |].
  split; [reflexivity |]. split; [reflexivity |].
  split; [reflexivity |]. split; [reflexivity |].
  unfold BookResource_get. rewrite cached_miss by assumption.
  unfold BookResource_get_body. cbn [store]. now rewrite Hget.
Qed.

Lemma create_then_get_returns_the_book_witness :
  exists (new_book : Book) (k : Z),
    id new_book = Some k
    /\ (JDict [ ("status", JStr "success");
                ("message", JStr "Book created successfully");
                ("data", dump Samples.amy) ],
        201)
       = (JDict [ ("status", JStr "success");
                  ("message", JStr "Book created successfully");
                  ("data", dump new_book) ],
          201)
    /\ get_str (Samples.book_payload "Amy" "B") "title" = Some (title new_book)
    /\ get_str (Samples.book_payload "Amy" "B") "author" = Some (author new_book)
    /\ get_str (Samples.book_payload "Amy" "B") "published_date" = published_date new_book
    /\ get_str (Samples.book_payload "Amy" "B") "summary" = summary new_book
    /\ fst (BookResource_get 0 k Samples.two_books) = Return (found_response new_book).
Proof.
  apply (create_then_get_returns_the_book
           (Samples.book_payload "Amy" "B") Samples.one_book Samples.two_books).
  - vm_compute. reflexivity.
  - vm_compute. reflexivity.
Defined.

(** X2.  A delete of a stored book answers 200, removes every row with
    that id and no other row, so that the id is no longer found while every
    other id finds what it found before; a second delete of the same id is
    refused with 400 and changes nothing. *)
Theorem delete_removes_exactly_that_book (book_id : Z) (book : Book) (st : State) :
  get_or_404 book_id (store st) = Some book ->
  exists st' : State,
    BookResource_delete book_id st = (Return deleted_response, st')
    /\ get_or_404 book_id (store st') = None
    /\ (forall k, k <> book_id -> get_or_404 k (store st') = get_or_404 k (store st))
    /\ (forall b, In b (store st') <-> In b (store st) /\ has_id book_id b = false)
    /\ BookResource_delete book_id st'
       = (Raise {| message := Errors.str NotFound; status_code := 400 |}, st').
Proof.
  intros Hfound. eexists. split; [| split; [| split; [| split]]].
  - unfold BookResource_delete. rewrite Hfound. reflexivity.
  - cbn [store]. apply RowFacts.get_after_delete.
  - intros k Hk. cbn [store]. now apply RowFacts.get_other_after_delete.
  - intros b. cbn [store]. unfold delete_row. rewrite filter_In, negb_true_iff. reflexivity.
  - unfold BookResource_delete. cbn [store]. now rewrite RowFacts.get_after_delete.
Qed.

Lemma delete_removes_exactly_that_book_witness :
  exists st' : State,
    BookResource_delete 1 Samples.two_books = (Return deleted_response, st')
    /\ get_or_404 1 (store st') = None
    /\ (forall k, k <> 1 -> get_or_404 k (store st') = get_or_404 k (store Samples.two_books))
    /\ (forall b, In b (store st') <-> In b (store Samples.two_books) /\ has_id 1 b = false)
    /\ BookResource_delete 1 st'
       = (Raise {| message := Errors.str NotFound; status_code := 400 |}, st').
Proof.
  apply (delete_removes_exactly_that_book 1 Samples.tom Samples.two_books). reflexivity.
Defined.

(** X3.  An update of a stored book with a payload that validates answers
    200 with the merged book: the fields of the payload overwritten, the
    optional fields it leaves out kept, the id kept.  Afterwards the id
    finds the merged book, every other id finds what it found before, and
    the table has as many rows as before. *)
Theorem update_overwrites_supplied_fields
  (book_id : Z) (book : Book) (data : json) (st : State) :
  get_or_404 book_id (store st) = Some book ->
  validate data = [] ->
  exists st' : State,
    BookResource_put book_id data st = (Return (updated_response (merged book data)), st')
    /\ id (merged book data) = Some book_id
    /\ Some (title (merged book data)) = get_str data "title"
    /\ Some (author (merged book data)) = get_str data "author"
    /\ (get_str data "published_date" = None ->
        published_date (merged book data) = published_date book)
    /\ (get_str data "summary" = None -> summary (merged book data) = summary book)
    /\ get_or_404 book_id (store st') = Some (merged book data)
    /\ (forall k, k <> book_id -> get_or_404 k (store st') = get_or_404 k (store st))
    /\ List.length (store st') = List.length (store st).
Proof.
  intros Hfound Hok.
  destruct (RowFacts.found_has_id _ _ _ Hfound) as [Hid [_ Hsome]].
  assert (Hmid : has_id book_id (merged book data) = true) by exact Hid.
  destruct (ValidateFacts.validate_ok_required data Hok) as [entries [t [a [-> [Et Ea]]]]].
  assert (Ht : get_str (JDict entries) "title" = Some t).
  { unfold get_str, member. now rewrite Et. }
  assert (Ha : get_str (JDict entries) "author" = Some a).
  { unfold get_str, member. now rewrite Ea. }
  eexists. split; [apply RowFacts.put_valid; assumption |].
  cbn [store]. repeat split.
  - exact Hsome.
  - unfold merged. cbn [title]. now rewrite Ht.
  - unfold merged. cbn [author]. now rewrite Ha.
  - intros Hd. unfold merged. cbn [published_date]. now rewrite Hd.
  - intros Hs. unfold merged. cbn [summary]. now rewrite Hs.
  - now apply (RowFacts.get_after_update book_id book).
  - intros k Hk. now apply RowFacts.get_other_after_update.
  - unfold update_row. apply length_map.
Qed.

Lemma update_overwrites_supplied_fields_witness :
  exists st' : State,
    BookResource_put 1 Samples.test_update_data Samples.with_sample_book
    = (Return (updated_response (merged Samples.sample_book Samples.test_update_data)), st')
    /\ id (merged Samples.sample_book Samples.test_update_data) = Some 1
    /\ Some (title (merged Samples.sample_book Samples.test_update_data))
       = get_str Samples.test_update_data "title"
    /\ Some (author (merged Samples.sample_book Samples.test_update_data))
       = get_str Samples.test_update_data "author"
    /\ (get_str Samples.test_update_data "published_date" = None ->
        published_date (merged Samples.sample_book Samples.test_update_data)
        = published_date Samples.sample_book)
    /\ (get_str Samples.test_update_data "summary" = None ->
        summary (merged Samples.sample_book Samples.test_update_data)
        = summary Samples.sample_book)
    /\ get_or_404 1 (store st') = Some (merged Samples.sample_book Samples.test_update_data)
    /\ (forall k, k <> 1 ->
                  get_or_404 k (store st') = get_or_404 k (store Samples.with_sample_book))
    /\ List.length (store st') = List.length (store Samples.with_sample_book).
Proof.
  apply (update_overwrites_supplied_fields
           1 Samples.sample_book Samples.test_update_data Samples.with_sample_book);
    reflexivity.
Defined.

(** X4.  An update is idempotent: sending the same valid payload for the
    same id a second time answers with the same response and leaves the
    table as the first update left it. *)
Theorem update_twice_is_update_once
  (book_id : Z) (book : Book) (data : json) (st : State) :
  get_or_404 book_id (store st) = Some book ->
  validate data = [] ->
  fst (BookResource_put book_id data (snd (BookResource_put book_id data st)))
  = fst (BookResource_put book_id data st)
  /\ store (snd (BookResource_put book_id data (snd (BookResource_put book_id data st))))
     = store (snd (BookResource_put book_id data st)).
Proof.
  intros Hfound Hok.
  destruct (RowFacts.found_has_id _ _ _ Hfound) as [Hid _].
  assert (Hmid : has_id book_id (merged book data) = true) by exact Hid.
  rewrite (RowFacts.put_valid book_id book data st Hfound Hok). cbn [fst snd].
  assert (Hagain : get_or_404 book_id (update_row book_id (merged book data) (store st))
                   = Some (merged book data)).
  { now apply (RowFacts.get_after_update book_id book). }
  rewrite (RowFacts.put_valid book_id (merged book data) data
             {| store := update_row book_id (merged book data) (store st);
                cache := invalidate book_id (cache st) |} Hagain Hok).
  cbn [fst snd store]. rewrite RowFacts.merged_twice. split; [reflexivity |].
  now apply RowFacts.update_row_twice.
Qed.

Lemma update_twice_is_update_once_witness :
  fst (BookResource_put 1 Samples.test_update_data
         (snd (BookResource_put 1 Samples.test_update_data Samples.with_sample_book)))
  = fst (BookResource_put 1 Samples.test_update_data Samples.with_sample_book)
  /\ store (snd (BookResource_put 1 Samples.test_update_data
                  (snd (BookResource_put 1 Samples.test_update_data Samples.with_sample_book))))
     = store (snd (BookResource_put 1 Samples.test_update_data Samples.with_sample_book)).
Proof.
  apply (update_twice_is_update_once
           1 Samples.sample_book Samples.test_update_data Samples.with_sample_book);
    reflexivity.
Defined.

(* ===================================================================== *)
(** ** What the schema lets through *)
(* ===================================================================== *)

Module SchemaFacts.

Lemma load_known_no_errors (fs : list (string * StrField)) (data : list (string * json)) :
  fst (load_known fs data) = []
  <-> Forall (fun nf => accepts (snd nf) (dict_get data (fst nf)) = true) fs.
Proof.
  induction fs as [| [name f] fs IH].
  - split; [constructor | reflexivity].
  - rewrite ValidateFacts.load_known_errors_cons, Forall_cons_iff. cbn [fst snd].
    unfold accepts at 1.
    destruct (deserialize f (dict_get data name)) as [m | v].
    + split; [discriminate | intros [H _]; discriminate].
    + rewrite IH. split; [now split | now intros [_ H]].
Qed.

(** An error of a load field is an error of the payload. *)
Lemma load_known_error (fs : list (string * StrField)) (data : list (string * json))
  (name : string) (f : StrField) (messages : list string) :
  In (name, f) fs ->
  deserialize f (dict_get data name) = inl messages ->
  In (name, messages) (fst (load_known fs data)).
Proof.
  induction fs as [| [n g] fs IH]; intros Hin Hdes; [destruct Hin |].
  rewrite ValidateFacts.load_known_errors_cons. destruct Hin as [E | Hin].
  - injection E as -> ->. rewrite Hdes. now left.
  - specialize (IH Hin Hdes).
    destruct (deserialize g (dict_get data n)); [now right | assumption].
Qed.

Lemma load_unknown_nil (data : list (string * json)) :
  load_unknown data = [] <-> forall k, In k (dict_keys data) -> In k load_field_names.
Proof.
  unfold load_unknown, unknown_keys. split.
  - intros Hnil k Hk.
    destruct (existsb (String.eqb k) load_field_names) eqn:E.
    + apply existsb_exists in E as [x [Hx Hkx]]. apply String.eqb_eq in Hkx. now subst.
    + assert (Hin : In k (List.filter
                            (fun k => negb (existsb (String.eqb k) load_field_names))
                            (dict_keys data))).
      { apply filter_In. split; [assumption | now rewrite E]. }
      apply (in_map (fun k => (k, ["Unknown field."]))) in Hin. rewrite Hnil in Hin.
      destruct Hin.
  - intros Hall.
    destruct (List.filter _ (dict_keys data)) as [| k ks] eqn:E; [reflexivity |].
    assert (Hin : In k (List.filter
                          (fun k => negb (existsb (String.eqb k) load_field_names))
                          (dict_keys data))) by (rewrite E; now left).
    apply filter_In in Hin as [Hk Hneg]. apply negb_true_iff in Hneg.
    specialize (Hall k Hk).
    assert (existsb (String.eqb k) load_field_names = true).
    { apply existsb_exists. exists k. split; [assumption | apply String.eqb_refl]. }
    congruence.
Qed.

Lemma accepts_length (raw : option json) (message : string) :
  accepts (mkStr true [Length 1 100 message]) raw = true <-> text_within 1 100 raw.
Proof.
  unfold accepts, deserialize, text_within. cbn [required validators flat_map].
  destruct raw as [[| | | | s | |] |];
    try (split; [discriminate | intros [s' [E _]]; discriminate]).
  unfold Length. rewrite app_nil_r.
  destruct ((String.length s <? 1)%nat || (100 <? String.length s)%nat) eqn:E.
  - split; [discriminate |]. intros [s' [Es [H1 H2]]]. injection Es as <-.
    apply orb_true_iff in E as [E | E]; apply Nat.ltb_lt in E; lia.
  - split; [| reflexivity]. intros _. exists s. split; [reflexivity |].
    apply orb_false_iff in E as [E1 E2]. apply Nat.ltb_ge in E1, E2. lia.
Qed.

Lemma accepts_optional (raw : option json) (ok : string -> bool) (message : string) :
  accepts (mkStr false [fun value => if ok value then [] else [message]]) raw = true
  <-> optional_text ok raw.
Proof.
  unfold accepts, deserialize, optional_text. cbn [required validators flat_map].
  destruct raw as [[| | | | s | |] |];
    try (split; [discriminate | intros [E | [s' [E _]]]; discriminate]).
  - rewrite app_nil_r. destruct (ok s) eqn:E.
    + split; [| reflexivity]. intros _. right. now exists s.
    + split; [discriminate |]. intros [H | [s' [Es Hok]]]; [discriminate |].
      injection Es as <-. congruence.
  - split; [intros _; now left | reflexivity].
Qed.

Lemma accepts_any_text (raw : option json) :
  accepts (mkStr false []) raw = true <-> optional_text (fun _ => true) raw.
Proof.
  unfold accepts, deserialize, optional_text. cbn [required validators flat_map].
  destruct raw as [[| | | | s | |] |];
    try (split; [discriminate | intros [E | [s' [E _]]]; discriminate]).
  - split; [| reflexivity]. intros _. right. now exists s.
  - split; [intros _; now left | reflexivity].
Qed.

End SchemaFacts.

(** X5.  [validate] reports no error exactly for an object whose keys are
    all among title, author, published_date and summary, whose title and
    author are texts of 1 to 100 characters, whose published_date, when
    present, is a text the date pattern matches, and whose summary, when
    present, is a text. *)
Theorem validate_accepts_exactly_the_schema (data : json) :
  validate data = [] <-> acceptable data.
Proof.
  unfold acceptable. split.
  - intros Hok. destruct (ValidateFacts.validate_not_dict data Hok) as [entries ->].
    exists entries. split; [reflexivity |].
    rewrite ValidateFacts.validate_dict in Hok. apply app_eq_nil in Hok as [Hknown Hunknown].
    apply SchemaFacts.load_known_no_errors in Hknown. unfold load_fields in Hknown.
    inversion Hknown as [| ? ? Ht Hrest1]; subst.
    inversion Hrest1 as [| ? ? Ha Hrest2]; subst.
    inversion Hrest2 as [| ? ? Hd Hrest3]; subst.
    inversion Hrest3 as [| ? ? Hs _]; subst.
    cbn [fst snd] in Ht, Ha, Hd, Hs.
    apply SchemaFacts.accepts_length in Ht, Ha.
    apply (SchemaFacts.accepts_optional _ date_regex_match) in Hd.
    apply SchemaFacts.accepts_any_text in Hs.
    pose proof (proj1 (SchemaFacts.load_unknown_nil entries) Hunknown) as Hkeys.
    repeat split; assumption.
  - intros [entries [-> [Ht [Ha [Hd [Hs Hkeys]]]]]].
    rewrite ValidateFacts.validate_dict.
    apply SchemaFacts.accepts_length with (message := "Length must be between 1 and 100.")
      in Ht, Ha.
    apply (SchemaFacts.accepts_optional _ date_regex_match
             "String does not match expected pattern.") in Hd.
    apply SchemaFacts.accepts_any_text in Hs.
    rewrite (proj2 (SchemaFacts.load_unknown_nil entries) Hkeys), app_nil_r.
    apply SchemaFacts.load_known_no_errors. unfold load_fields.
    repeat constructor; assumption.
Qed.

(** X6.  A load field that is present but holds no text is refused,
    optional or not: null is reported as 'Field may not be null.', any
    other value that is not a text as 'Not a valid string.'; a create with
    such a payload raises the 400 error and stores nothing. *)
Theorem non_text_field_is_rejected
  (entries : list (string * json)) (name : string) (v : json) (st : State) :
  In name load_field_names ->
  dict_get entries name = Some v ->
  (forall s, v <> JStr s) ->
  In (name, [match v with
             | JNull => "Field may not be null."
             | _ => "Not a valid string."
             end])
     (validate (JDict entries))
  /\ BookList_post (JDict entries) st
     = (Raise {| message := Py.str_errors (validate (JDict entries)); status_code := 400 |},
        st).
Proof.
  intros Hname Hget Hnot.
  assert (Hrep : In (name, [match v with
                            | JNull => "Field may not be null."
                            | _ => "Not a valid string."
                            end])
                    (validate (JDict entries))).
  { rewrite ValidateFacts.validate_dict. apply in_or_app. left.
    unfold load_field_names in Hname. apply in_map_iff in Hname as [[n f] [En Hin]].
    cbn [fst] in En. subst n.
    apply (SchemaFacts.load_known_error _ _ name f); [assumption |].
    rewrite Hget. unfold deserialize.
    destruct v; try reflexivity. now destruct (Hnot s). }
  split; [assumption |].
  unfold BookList_post. now rewrite (ValidateFacts.truthy_In _ _ Hrep).
Qed.

Lemma non_text_field_is_rejected_witness :
  In ("summary", ["Field may not be null."])
     (validate (JDict [("title", JStr "T"); ("author", JStr "A"); ("summary", JNull)]))
  /\ BookList_post (JDict [("title", JStr "T"); ("author", JStr "A"); ("summary", JNull)])
       Samples.empty_state
     = (Raise {| message :=
                   Py.str_errors
                     (validate (JDict [("title", JStr "T"); ("author", JStr "A");
                                       ("summary", JNull)]));
                 status_code := 400 |},
        Samples.empty_state).
Proof.
  apply (non_text_field_is_rejected
           [("title", JStr "T"); ("author", JStr "A"); ("summary", JNull)]
           "summary" JNull Samples.empty_state).
  - simpl. right. right. right. left. reflexivity.
  - reflexivity.
  - intros s. discriminate.
Defined.

(* ===================================================================== *)
(** ** Pages and order *)
(* ===================================================================== *)

Module PageFacts.

Lemma firstn_plus {A : Type} (a b : nat) (l : list A) :
  firstn (a + b) l = (firstn a l ++ firstn b (skipn a l))%list.
Proof.
  revert l. induction a as [| a IH]; intros l; [reflexivity |].
  destruct l as [| x l]; [now destruct b |].
  cbn [Nat.add firstn skipn app]. now rewrite IH.
Qed.

(** The first [k] chunks of [n] items, one after the other, are the first
    [k * n] items. *)
Lemma chunks_firstn {A : Type} (n k : nat) (l : list A) :
  flat_map (fun i => firstn n (skipn (i * n) l)) (seq 0 k) = firstn (k * n) l.
Proof.
  induction k as [| k IH]; [reflexivity |].
  rewrite seq_S, flat_map_app, IH. cbn [flat_map Nat.add].
  rewrite app_nil_r. replace (S k * n)%nat with (k * n + n)%nat by lia.
  now rewrite firstn_plus.
Qed.

(** The items of page [i + 1], as a chunk of the rows. *)
Lemma items_chunk (i : nat) (per_page : Z) (rows : list Book) :
  1 <= per_page ->
  items (page_slice (Z.of_nat i + 1) per_page rows)
  = firstn (Z.to_nat per_page) (skipn (i * Z.to_nat per_page) rows).
Proof.
  intros Hper. unfold page_slice. cbn [items].
  destruct (Z.of_nat i + 1 <? 1) eqn:E1; [apply Z.ltb_lt in E1; lia |].
  destruct (per_page <? 1) eqn:E2; [apply Z.ltb_lt in E2; lia |].
  do 2 f_equal. replace (Z.of_nat i + 1 - 1) with (Z.of_nat i) by lia.
  rewrite Z2Nat.inj_mul by lia. now rewrite Nat2Z.id.
Qed.

Lemma pages_cover (page per_page : Z) (rows : list Book) :
  1 <= per_page ->
  (List.length rows
   <= Z.to_nat (pages (page_slice page per_page rows)) * Z.to_nat per_page)%nat.
Proof.
  intros Hper.
  destruct (QueryFacts.slice_pages page per_page rows Hper) as [[Hup Hlow] _].
  assert (0 <= pages (page_slice page per_page rows)) by nia.
  rewrite <- Z2Nat.inj_mul by lia. lia.
Qed.

Lemma slices_partition (per_page : Z) (rows : list Book) :
  1 <= per_page ->
  flat_map items
    (map (fun n => page_slice n per_page rows)
         (page_numbers (Z.to_nat (pages (page_slice 1 per_page rows)))))
  = rows.
Proof.
  intros Hper. unfold page_numbers.
  rewrite flat_map_concat_map, !map_map, <- flat_map_concat_map.
  rewrite (flat_map_ext _ (fun i => firstn (Z.to_nat per_page)
                                      (skipn (i * Z.to_nat per_page) rows))).
  - rewrite chunks_firstn. apply firstn_all2. now apply pages_cover.
  - intros i. now apply items_chunk.
Qed.

Lemma Forall2_map_right {A B : Type} (R : A -> B -> Prop) (f : A -> B) (l : list A) :
  (forall x, In x l -> R x (f x)) -> Forall2 R l (map f l).
Proof.
  induction l as [| x l IH]; intros H; [constructor |].
  cbn [map]. constructor; [apply H; now left |].
  apply IH. intros y Hy. apply H. now right.
Qed.

Lemma page_slice_pages (page page' per_page : Z) (rows : list Book) :
  pages (page_slice page per_page rows) = pages (page_slice page' per_page rows).
Proof. reflexivity. Qed.



End PageFacts.

(** X7.  For a page size and a query result within the database's
    integers, every page from 1 to [total_pages] is answered, and the items
    of these pages, one after the other, are the query result: every row is
    on one page, in order, and none is repeated or lost. *)
Theorem pages_partition_the_result (per_page : Z) (rows : list Book) :
  1 <= per_page ->
  per_page <= sqlite_max ->
  Z.of_nat (List.length rows) <= sqlite_max ->
  exists (first : Pagination) (ps : list Pagination),
    paginate 1 per_page rows = Some first
    /\ paginations_of per_page rows (page_numbers (Z.to_nat (pages first))) ps
    /\ flat_map items ps = rows.
Proof.
  intros Hper Hlimit Hrows. unfold sqlite_max in *.
  exists (page_slice 1 per_page rows).
  exists (map (fun n => page_slice n per_page rows)
              (page_numbers (Z.to_nat (pages (page_slice 1 per_page rows))))).
  split; [apply QueryFacts.paginate_fits; lia |].
  split; [| now apply PageFacts.slices_partition].
  unfold paginations_of. apply PageFacts.Forall2_map_right.
  intros n Hn. unfold page_numbers in Hn. apply in_map_iff in Hn as [i [<- Hi]].
  apply in_seq in Hi.
  destruct (QueryFacts.slice_pages 1 per_page rows Hper) as [[Hup Hlow] _].
  apply QueryFacts.paginate_fits; try lia.
  assert (Z.of_nat i <= pages (page_slice 1 per_page rows) - 1) by lia.
  nia.
Qed.

Lemma pages_partition_the_result_witness :
  exists (first : Pagination) (ps : list Pagination),
    paginate 1 1 [Samples.tom; Samples.amy] = Some first
    /\ paginations_of 1 [Samples.tom; Samples.amy] (page_numbers (Z.to_nat (pages first))) ps
    /\ flat_map items ps = [Samples.tom; Samples.amy].
Proof.
  apply (pages_partition_the_result 1 [Samples.tom; Samples.amy]).
  - lia.
  - vm_compute. discriminate.
  - vm_compute. discriminate.
Defined.

(** X8.  For positive [page] and [per_page] whose LIMIT and OFFSET fit the
    database's integers the page is answered and holds [per_page] items, or
    what is left of the result after the pages before it when that is less,
    and nothing when those pages already hold all of it; when one of the
    two does not fit, no page is answered. *)
Theorem page_holds_at_most_per_page (page per_page : Z) (rows : list Book) :
  1 <= page ->
  1 <= per_page ->
  (per_page <= sqlite_max ->
   (page - 1) * per_page <= sqlite_max ->
   exists p : Pagination,
     paginate page per_page rows = Some p
     /\ Z.of_nat (List.length (items p))
        = Z.min per_page (Z.max 0 (Z.of_nat (List.length rows) - (page - 1) * per_page)))
  /\ (sqlite_max < per_page \/ sqlite_max < (page - 1) * per_page ->
      paginate page per_page rows = None).
Proof.
  intros Hpage Hper. unfold sqlite_max. split.
  - intros Hlimit Hoffset. exists (page_slice page per_page rows).
    split; [now apply QueryFacts.paginate_fits |].
    unfold page_slice. cbn [items].
    destruct (page <? 1) eqn:E1; [apply Z.ltb_lt in E1; lia |].
    destruct (per_page <? 1) eqn:E2; [apply Z.ltb_lt in E2; lia |].
    rewrite length_take, length_drop. nia.
  - intros Hover. now apply QueryFacts.paginate_overflow.
Qed.

Lemma page_holds_at_most_per_page_witness :
  (exists p : Pagination,
      paginate 2 3 [Samples.tom; Samples.amy; Samples.tom; Samples.amy; Samples.tom] = Some p
      /\ Z.of_nat (List.length (items p))
         = Z.min 3 (Z.max 0 (Z.of_nat (List.length [Samples.tom; Samples.amy; Samples.tom;
                                                    Samples.amy; Samples.tom])
                               - (2 - 1) * 3)))
  /\ paginate 9223372036854775808 10 [Samples.tom] = None.
Proof.
  split.
  - apply (proj1 (page_holds_at_most_per_page 2 3 _ ltac:(lia) ltac:(lia))).
    + vm_compute. discriminate.
    + vm_compute. discriminate.
  - apply (proj2 (page_holds_at_most_per_page 9223372036854775808 10 [Samples.tom]
                    ltac:(lia) ltac:(lia))).
    right. vm_compute. reflexivity.
Defined.



Module OrderFacts.

Lemma string_leb_total (s t : string) : String.leb s t = false -> String.leb t s = true.
Proof.
  intros H. destruct (String.leb_total s t) as [E | E]; congruence.
Qed.

Lemma string_leb_trans (s t u : string) :
  String.leb s t = true -> String.leb t u = true -> String.leb s u = true.
Proof.
  intros H1 H2. apply Is_true_true.
  apply (transitivity (R := String.le) (y := t)); apply Is_true_true; assumption.
Qed.

Lemma column_leb_total (x y : option string) : column_leb x y = false -> column_leb y x = true.
Proof.
  destruct x as [s |], y as [t |]; cbn; try congruence.
  apply string_leb_total.
Qed.

Lemma column_leb_trans (x y z : option string) :
  column_leb x y = true -> column_leb y z = true -> column_leb x z = true.
Proof.
  destruct x as [s |], y as [t |], z as [u |]; cbn; try congruence.
  apply string_leb_trans.
Qed.

Lemma row_leb_total (f : sort_field) (o : sort_order) (x y : Book) :
  row_leb f o x y = false -> row_leb f o y x = true.
Proof. destruct o; apply column_leb_total. Qed.

Lemma row_leb_trans (f : sort_field) (o : sort_order) (x y z : Book) :
  row_leb f o x y = true -> row_leb f o y z = true -> row_leb f o x z = true.
Proof.
  destruct o; cbn; intros H1 H2.
  - now apply (column_leb_trans _ (column f y)).
  - now apply (column_leb_trans _ (column f y)).
Qed.

Lemma insert_sorted_ordered (f : sort_field) (o : sort_order) (x : Book) (l : list Book) :
  ordered_by f o l -> ordered_by f o (Py.insert_sorted (row_leb f o) x l).
Proof.
  unfold ordered_by. induction l as [| y l IH]; intros Hl; cbn [Py.insert_sorted].
  - repeat constructor.
  - destruct (row_leb f o x y) eqn:E.
    + constructor; [assumption |]. constructor; [assumption |].
      apply StronglySorted_inv in Hl as [_ Hy].
      eapply Forall_impl; [exact Hy |]. intros z Hz. cbn in Hz.
      now apply (row_leb_trans f o x y z).
    + apply StronglySorted_inv in Hl as [Hl Hy]. constructor; [now apply IH |].
      apply List.Forall_forall. intros z Hz.
      apply (Permutation_in _ (QueryFacts.insert_sorted_perm (row_leb f o) x l)) in Hz.
      destruct Hz as [<- | Hz]; [now apply row_leb_total |].
      now apply (proj1 (List.Forall_forall _ _) Hy).
Qed.

Lemma order_by_ordered (f : sort_field) (o : sort_order) (rows : list Book) :
  ordered_by f o (order_by f o rows).
Proof.
  unfold order_by, Py.sorted. induction rows as [| r rows IH]; cbn [fold_right].
  - constructor.
  - now apply insert_sorted_ordered.
Qed.

End OrderFacts.

(** X10.  When a sort field is given, the rows of a list request come in
    the order of that column: ascending, or descending when [order] is
    desc; a row without published_date sorts as the least value.  The
    rows are those of the search, each as often as there. *)
Theorem sorted_list_is_in_column_order (args : ListArgs) (f : sort_field) (rows : table) :
  sort args = Some f ->
  ordered_by f (order args) (list_query args rows)
  /\ Permutation (list_query args rows)
                 (match search_query_given (q args) with
                  | Some query => search query rows
                  | None => rows
                  end).
Proof.
  intros Hsort. split; [| apply QueryFacts.list_query_perm].
  unfold list_query. rewrite Hsort. apply OrderFacts.order_by_ordered.
Qed.

Lemma sorted_list_is_in_column_order_witness :
  ordered_by by_title desc
    (list_query {| page := 1; per_page := 10; sort := Some by_title; order := desc;
                   q := None |}
                [Samples.amy; Samples.tom])
  /\ Permutation
       (list_query {| page := 1; per_page := 10; sort := Some by_title; order := desc;
                      q := None |}
                   [Samples.amy; Samples.tom])
       [Samples.amy; Samples.tom].
Proof.
  apply (sorted_list_is_in_column_order
           {| page := 1; per_page := 10; sort := Some by_title; order := desc; q := None |}
           by_title [Samples.amy; Samples.tom]).
  reflexivity.
Defined.

(* ===================================================================== *)
(** ** Bulk delete, and the two copies of the routes *)
(* ===================================================================== *)

Module DeleteFacts.





End DeleteFacts.



Module RouteFacts.

(** The two copies of the routes leave the same table. *)
Lemma copies_agree (hash_method : string -> string) (r : request) (st : State) :
  store (snd (RoutesV1.route hash_method r st)) = store (snd (App.route hash_method r st)).
Proof.
  destruct r as [now req | data | now book_id | book_id data | book_id | books_data | ids];
    cbn [route RoutesV1.route]; try reflexivity.
  - unfold RoutesV1.BookList_get, BookList_get, cached.
    destruct (cache_get _ _ _), (cache_get _ _ _); try reflexivity;
      now destruct (BookList_get_body req st).
  - unfold RoutesV1.BookList_post, BookList_post.
    destruct (truthy (validate data)); [reflexivity |].
    destruct (new_Book data); [reflexivity |].
    unfold add_commit. now rewrite StoreFacts.insert_row_with_id.
  - unfold RoutesV1.BulkBookOperations_post, BulkBookOperations_post.
    destruct (bulk_loop 0 books_data) as [e | [[| bad more] new_books]]; reflexivity.
  - unfold RoutesV1.BulkBookOperations_delete, BulkBookOperations_delete.
    destruct ids as [| k ids]; [reflexivity |].
    destruct (delete_in (k :: ids) (store st)) as [[n rows] |]; reflexivity.
Qed.

Lemma route_in_store (rs : route_set) (hash_method : string -> string) (r : request)
  (st : State) :
  store (snd (route_in rs hash_method r st)) = store (snd (App.route hash_method r st)).
Proof. destruct rs; [reflexivity | apply copies_agree]. Qed.

End RouteFacts.

(* ===================================================================== *)
(** ** The ids of the table *)
(* ===================================================================== *)

Module KeyFacts.

Lemma id_le_max (rows : table) (k : Z) : In (Some k) (map id rows) -> k <= max_id rows.
Proof.
  induction rows as [| r rows IH]; [intros [] |].
  cbn [map max_id fold_right]. fold (max_id rows). intros [E | Hin].
  - rewrite E. lia.
  - specialize (IH Hin). destruct (id r); lia.
Qed.

Lemma insert_row_well_keyed (b : Book) (rows : table) :
  well_keyed rows -> well_keyed (snd (insert_row b rows)).
Proof.
  intros [Hsome Hnodup]. rewrite StoreFacts.insert_row_with_id. cbn [snd].
  unfold well_keyed. rewrite map_app. cbn [map with_id id]. split.
  - apply Forall_app. split; [assumption |]. constructor; [discriminate | constructor].
  - apply NoDup_app. split; [assumption |]. split.
    + intros k Hk Hin. apply list_elem_of_In in Hk. apply list_elem_of_In in Hin.
      destruct Hin as [<- | []]. apply id_le_max in Hk. lia.
    + apply NoDup_singleton.
Qed.

Lemma bulk_save_well_keyed (books : list Book) (rows : table) :
  well_keyed rows -> well_keyed (bulk_save_objects books rows).
Proof.
  revert rows. induction books as [| b books IH]; intros rows Hrows; [assumption |].
  cbn [bulk_save_objects]. apply IH. now apply insert_row_well_keyed.
Qed.

Lemma filter_well_keyed (p : Book -> bool) (rows : table) :
  well_keyed rows -> well_keyed (List.filter p rows).
Proof.
  unfold well_keyed. induction rows as [| r rows IH]; intros [Hsome Hnodup]; [now split |].
  cbn [map] in Hsome, Hnodup. apply Forall_cons_iff in Hsome as [Hr Hsome].
  apply NoDup_cons in Hnodup as [Hnotin Hnodup].
  destruct (IH (conj Hsome Hnodup)) as [IH1 IH2].
  cbn [List.filter]. destruct (p r); [| now split].
  cbn [map]. split; [now constructor |].
  apply NoDup_cons. split; [| assumption].
  intros Hin. apply Hnotin. apply list_elem_of_In in Hin. apply list_elem_of_In.
  apply in_map_iff in Hin as [x [Ex Hx]]. apply filter_In in Hx as [Hx _].
  apply in_map_iff. now exists x.
Qed.

Lemma update_row_ids (k : Z) (updated : Book) (rows : table) :
  id updated = Some k ->
  map id (update_row k updated rows) = map id rows.
Proof.
  intros Hid. unfold update_row. rewrite map_map. apply map_ext_in. intros r _.
  destruct (has_id k r) eqn:Er; [| reflexivity].
  unfold has_id in Er. destruct (id r) as [j |]; [| discriminate].
  apply Z.eqb_eq in Er. now subst.
Qed.

End KeyFacts.

(** X13.  The ids of the table stay sound: if every row has an id and no
    two rows share one, the same holds after any request, served by
    either copy of the routes. *)
Theorem requests_keep_ids_distinct
  (rs : route_set) (hash_method : string -> string) (r : request) (st : State) :
  well_keyed (store st) ->
  well_keyed (store (snd (route_in rs hash_method r st))).
Proof.
  intros Hkeyed.
  rewrite RouteFacts.route_in_store.
  destruct r as [now req | data | now book_id | book_id data | book_id | books_data | ids];
    cbn [route].
  - unfold BookList_get, cached. destruct (cache_get _ _ _); [assumption |].
    now destruct (BookList_get_body req st).
  - unfold BookList_post.
    destruct (truthy (validate data)); [assumption |].
    destruct (new_Book data) as [e | b]; [assumption |].
    unfold add_commit. pose proof (KeyFacts.insert_row_well_keyed b (store st) Hkeyed) as H.
    now destruct (insert_row b (store st)).
  - unfold BookResource_get, cached. destruct (cache_get _ _ _); [assumption |].
    now destruct (BookResource_get_body book_id st).
  - unfold BookResource_put.
    destruct (get_or_404 book_id (store st)) as [book |] eqn:Hfound; [| assumption].
    destruct (truthy (validate data)); [assumption |].
    cbn [try_except snd store]. unfold well_keyed.
    rewrite KeyFacts.update_row_ids; [assumption |].
    now destruct (RowFacts.found_has_id _ _ _ Hfound) as [_ [_ H]].
  - unfold BookResource_delete.
    destruct (get_or_404 book_id (store st)); [| assumption].
    cbn [try_except snd store]. now apply KeyFacts.filter_well_keyed.
  - unfold BulkBookOperations_post.
    destruct (bulk_loop 0 books_data) as [e | [[| bad more] new_books]]; try assumption.
    cbn [try_except snd store]. now apply KeyFacts.bulk_save_well_keyed.
  - unfold BulkBookOperations_delete. destruct ids as [| k ks]; [assumption |].
    unfold delete_in. destruct (forallb sqlite_int (k :: ks)); [| assumption].
    cbn [try_except snd store]. now apply KeyFacts.filter_well_keyed.
Qed.

Lemma requests_keep_ids_distinct_witness :
  well_keyed (store (snd (route_in v1_routes Samples.plain_digest
                            (POST_books (Samples.book_payload "T" "A")) Samples.two_books))).
Proof.
  apply (requests_keep_ids_distinct v1_routes Samples.plain_digest
           (POST_books (Samples.book_payload "T" "A")) Samples.two_books).
  split.
  - repeat constructor; discriminate.
  - cbn. apply NoDup_cons. split.
    + intros Hin. apply list_elem_of_In in Hin. destruct Hin as [E | []]. discriminate E.
    + apply NoDup_singleton.
Defined.

(* ===================================================================== *)
(** ** The lifetime of a cached response *)
(* ===================================================================== *)

Module LifetimeFacts.

(** A response the decorator stored at time [now] is served until
    [now + timeout] and computed anew from then on. *)
Lemma cached_lifetime (timeout now later : Z) (key : string) (f : State -> outcome)
  (st st2 : State) (rv : response) :
  cache_get now (cache st) key = None ->
  f st = Return rv ->
  cache st2 = cache (snd (cached timeout key now f st)) ->
  (later < now + timeout -> fst (cached timeout key later f st2) = Return rv)
  /\ (now + timeout <= later -> fst (cached timeout key later f st2) = f st2).
Proof.
  intros Hmiss Hf Hcache.
  assert (Hentry : cache st2 !! key = Some (now + timeout, rv)).
  { rewrite Hcache. unfold cached. rewrite Hmiss, Hf. cbn [snd cache].
    unfold cache_set. apply lookup_insert_eq. }
  split; intros Htime.
  - rewrite (CacheFacts.cached_hit _ _ _ _ _ rv); [reflexivity |].
    unfold cache_get. rewrite Hentry.
    destruct (later <? now + timeout) eqn:E; [reflexivity | apply Z.ltb_ge in E; lia].
  - apply cached_miss. unfold cache_get. rewrite Hentry.
    destruct (later <? now + timeout) eqn:E; [apply Z.ltb_lt in E; lia | reflexivity].
Qed.

(** A view function that raises leaves nothing in the cache. *)
Lemma cached_raise_stores_nothing (timeout now : Z) (key : string) (f : State -> outcome)
  (st : State) (e : ValidationError) :
  f st = Raise e -> snd (cached timeout key now f st) = st.
Proof.
  intros Hf. unfold cached. destruct (cache_get now (cache st) key); [reflexivity |].
  now rewrite Hf.
Qed.

End LifetimeFacts.

(** X14.  A list response and a get-by-id response that were computed at
    time [now] are served from the cache, whatever the table has become, at
    every time before [now + 300], and are computed from the table again
    at every time from [now + 300] on. *)
Theorem cached_responses_live_300_seconds
  (hash_method : string -> string) (now later : Z) (st st2 : State) (rv : response) :
  (forall req : ListRequest,
      cache_get now (cache st)
        (make_cache_key_query_string hash_method "/books" (query_args req)) = None ->
      BookList_get_body req st = Return rv ->
      cache st2 = cache (snd (BookList_get hash_method now req st)) ->
      (later < now + 300 -> fst (BookList_get hash_method later req st2) = Return rv)
      /\ (now + 300 <= later ->
          fst (BookList_get hash_method later req st2) = BookList_get_body req st2))
  /\ (forall book_id other_id : Z,
        cache_get now (cache st) (make_cache_key "book") = None ->
        BookResource_get_body book_id st = Return rv ->
        cache st2 = cache (snd (BookResource_get now book_id st)) ->
        (later < now + 300 -> fst (BookResource_get later other_id st2) = Return rv)
        /\ (now + 300 <= later ->
            fst (BookResource_get later other_id st2) = BookResource_get_body other_id st2)).
Proof.
  split.
  - intros req Hmiss Hbody Hcache. unfold BookList_get in *.
    now apply (LifetimeFacts.cached_lifetime 300 now later _ _ st st2 rv).
  - intros book_id other_id Hmiss Hbody Hcache. unfold BookResource_get in *.
    assert (Hentry : cache st2 !! make_cache_key "book" = Some (now + 300, rv)).
    { rewrite Hcache. unfold cached. rewrite Hmiss, Hbody. cbn [snd cache].
      unfold cache_set. apply lookup_insert_eq. }
    split; intros Htime.
    + rewrite (CacheFacts.cached_hit _ _ _ _ _ rv); [reflexivity |].
      unfold cache_get. rewrite Hentry.
      destruct (later <? now + 300) eqn:E; [reflexivity | apply Z.ltb_ge in E; lia].
    + apply cached_miss. unfold cache_get. rewrite Hentry.
      destruct (later <? now + 300) eqn:E; [apply Z.ltb_lt in E; lia | reflexivity].
Qed.

Lemma cached_responses_live_300_seconds_witness :
  (300 < 0 + 300 ->
   fst (BookResource_get 300 1
          {| store := [];
             cache := cache (snd (BookResource_get 0 1 Samples.one_book)) |})
   = Return (found_response Samples.tom))
  /\ (0 + 300 <= 300 ->
      fst (BookResource_get 300 1
             {| store := [];
                cache := cache (snd (BookResource_get 0 1 Samples.one_book)) |})
      = BookResource_get_body 1
          {| store := [];
             cache := cache (snd (BookResource_get 0 1 Samples.one_book)) |}).
Proof.
  apply (proj2 (cached_responses_live_300_seconds
                  Samples.plain_digest 0 300 Samples.one_book
                  {| store := [];
                     cache := cache (snd (BookResource_get 0 1 Samples.one_book)) |}
                  (found_response Samples.tom))
           1 1).
  - vm_compute. reflexivity.
  - reflexivity.
  - reflexivity.
Defined.

(* ===================================================================== *)
(** ** More on the search *)
(* ===================================================================== *)

Module SearchMore.





End SearchMore.

(** X15.  The search does not tell the upper case of an ASCII letter of
    the query from the lower case: two queries that are equal once their
    capitals are folded select the same rows. *)
Theorem search_ignores_case_of_query (q1 q2 : string) (rows : table) :
  lower q1 = lower q2 -> search q1 rows = search q2 rows.
Proof.
  intros Hfold. unfold search. apply filter_ext. intros b.
  unfold search_filter, ilike.
  change ("%" ++ q1 ++ "%") with ("%" ++ (q1 ++ "%")).
  change ("%" ++ q2 ++ "%") with ("%" ++ (q2 ++ "%")).
  rewrite !SearchFacts.lower_app. now rewrite Hfold.
Qed.

Lemma search_ignores_case_of_query_witness :
  search "TOM" [Samples.tom; Samples.amy] = search "tom" [Samples.tom; Samples.amy].
Proof.
  apply (search_ignores_case_of_query "TOM" "tom" [Samples.tom; Samples.amy]). reflexivity.
Defined.



(* ===================================================================== *)
(** ** Reads, totals and dates *)
(* ===================================================================== *)

Module ReadFacts.

Lemma cached_store (timeout now : Z) (key : string) (f : State -> outcome) (st : State) :
  store (snd (cached timeout key now f st)) = store st.
Proof.
  unfold cached. destruct (cache_get now (cache st) key); [reflexivity |].
  now destruct (f st).
Qed.

Lemma cached_other_keys (timeout now : Z) (key other : string) (f : State -> outcome)
  (st : State) :
  other <> key ->
  cache (snd (cached timeout key now f st)) !! other = cache st !! other.
Proof.
  intros Hne. unfold cached. destruct (cache_get now (cache st) key); [reflexivity |].
  destruct (f st); [| reflexivity].
  cbn [snd cache]. unfold cache_set. apply lookup_insert_ne. congruence.
Qed.

Lemma cached_live_entry_kept (timeout now : Z) (key : string) (f : State -> outcome)
  (st : State) (rv : response) :
  cache_get now (cache st) key = Some rv ->
  snd (cached timeout key now f st) = st.
Proof. intros Hhit. unfold cached. now rewrite Hhit. Qed.

(** What a bulk create that answers 201 has written. *)
Lemma bulk_post_created (books_data : list json) (st st' : State) (rv : response) :
  BulkBookOperations_post books_data st = (Return rv, st') ->
  status rv = 201 ->
  exists new_books : list Book,
    List.length new_books = List.length books_data
    /\ store st' = (store st ++ numbered (max_id (store st) + 1) new_books)%list.
Proof.
  intros Hpost Hstatus.
  destruct (BulkFacts.bulk_loop_result 0 books_data) as [bs [Hloop [Hnew _]]].
  unfold BulkBookOperations_post in Hpost. rewrite Hloop in Hpost.
  destruct (List.filter _ (enumerate 0 books_data)) as [| bad more] eqn:Efail.
  - cbn [map try_except] in Hpost. injection Hpost as <- <-.
    exists bs. split.
    + rewrite (BulkFacts.no_failing_all_kept 0 books_data Efail) in Hnew.
      symmetry. eapply Forall2_length. eassumption.
    + cbn [store]. apply StoreFacts.bulk_save_objects_numbered.
  - cbn [map try_except] in Hpost. injection Hpost as <- <-. discriminate Hstatus.
Qed.

Lemma post_created (data : json) (st st' : State) (rv : response) :
  BookList_post data st = (Return rv, st') ->
  exists new_book : Book, store st' = (store st ++ [new_book])%list.
Proof.
  intros Hpost. unfold BookList_post in Hpost.
  destruct (truthy (validate data)); [discriminate Hpost |].
  destruct (new_Book data) as [e | b]; [discriminate Hpost |].
  unfold add_commit in Hpost. rewrite StoreFacts.insert_row_with_id in Hpost.
  cbn [try_except] in Hpost. injection Hpost as _ <-. eexists. reflexivity.
Qed.

(** The total a list request without search computes is the number of
    rows of the table. *)
Lemma list_total_unfiltered (req : ListRequest) (args : ListArgs) (st : State) :
  parse_args req = Some args ->
  q args = None ->
  1 <= page args ->
  1 <= per_page args ->
  per_page args <= sqlite_max ->
  (page args - 1) * per_page args <= sqlite_max ->
  exists p : Pagination,
    BookList_get_body req st = Return (list_response args p)
    /\ total p = Z.of_nat (List.length (store st)).
Proof.
  intros Hargs Hq Hpage Hper Hlimit Hoffset. unfold sqlite_max in *.
  exists (page_slice (page args) (per_page args) (list_query args (store st))). split.
  - unfold BookList_get_body. rewrite Hargs.
    now rewrite QueryFacts.paginate_fits.
  - rewrite QueryFacts.slice_total. f_equal.
    apply Permutation_length. rewrite QueryFacts.list_query_perm. now rewrite Hq.
Qed.

End ReadFacts.

(** X18.  After a create that succeeds, a list request without search,
    with positive [page] and [per_page] whose LIMIT and OFFSET fit the
    database's integers, that is computed from the table reports one item
    more than the table held before; after a bulk create that answers 201,
    as many more as the request had items. *)
Theorem create_raises_the_listed_total
  (req : ListRequest) (args : ListArgs) :
  parse_args req = Some args ->
  q args = None ->
  1 <= page args ->
  1 <= per_page args ->
  per_page args <= sqlite_max ->
  (page args - 1) * per_page args <= sqlite_max ->
  (forall (data : json) (st st' : State) (rv : response),
      BookList_post data st = (Return rv, st') ->
      exists p : Pagination,
        BookList_get_body req st' = Return (list_response args p)
        /\ total p = Z.of_nat (List.length (store st)) + 1)
  /\ (forall (books_data : list json) (st st' : State) (rv : response),
        BulkBookOperations_post books_data st = (Return rv, st') ->
        status rv = 201 ->
        exists p : Pagination,
          BookList_get_body req st' = Return (list_response args p)
          /\ total p = Z.of_nat (List.length (store st)) + Z.of_nat (List.length books_data)).
Proof.
  intros Hargs Hq Hpage Hper Hlimit Hoffset. split.
  - intros data st st' rv Hpost.
    destruct (ReadFacts.post_created data st st' rv Hpost) as [b Hstore].
    destruct (ReadFacts.list_total_unfiltered req args st' Hargs Hq Hpage Hper Hlimit Hoffset)
      as [p [Hbody Htotal]].
    exists p. split; [assumption |].
    rewrite Htotal, Hstore, length_app. cbn [List.length]. lia.
  - intros books_data st st' rv Hpost Hstatus.
    destruct (ReadFacts.bulk_post_created books_data st st' rv Hpost Hstatus)
      as [bs [Hlen Hstore]].
    destruct (ReadFacts.list_total_unfiltered req args st' Hargs Hq Hpage Hper Hlimit Hoffset)
      as [p [Hbody Htotal]].
    exists p. split; [assumption |].
    rewrite Htotal, Hstore, length_app, StoreFacts.numbered_length, Hlen. lia.
Qed.

Lemma create_raises_the_listed_total_witness :
  (exists p : Pagination,
      BookList_get_body Samples.list_all Samples.two_books
      = Return (list_response {| page := 1; per_page := 10; sort := None; order := asc;
                                 q := None |} p)
      /\ total p = Z.of_nat (List.length (store Samples.one_book)) + 1)
  /\ (exists p : Pagination,
         BookList_get_body Samples.list_all Samples.two_books
         = Return (list_response {| page := 1; per_page := 10; sort := None; order := asc;
                                    q := None |} p)
         /\ total p = Z.of_nat (List.length (store Samples.one_book))
                      + Z.of_nat (List.length [Samples.book_payload "Amy" "B"])).
Proof.
  pose proof (create_raises_the_listed_total
                Samples.list_all
                {| page := 1; per_page := 10; sort := None; order := asc; q := None |}
                eq_refl eq_refl ltac:(simpl; lia) ltac:(simpl; lia)
                ltac:(vm_compute; discriminate) ltac:(vm_compute; discriminate))
    as [Hone Hmany].
  split.
  - apply (Hone (Samples.book_payload "Amy" "B") Samples.one_book Samples.two_books
             (JDict [ ("status", JStr "success");
                      ("message", JStr "Book created successfully");
                      ("data", dump Samples.amy) ], 201)).
    vm_compute. reflexivity.
  - apply (Hmany [Samples.book_payload "Amy" "B"] Samples.one_book Samples.two_books
             (JDict [ ("status", JStr "success");
                      ("message", JStr "Successfully created 1 books");
                      ("data", JList [JDict [ ("id", JNull); ("title", JStr "Amy");
                                              ("author", JStr "B");
                                              ("published_date", JNull);
                                              ("summary", JNull) ]]) ], 201)).
    + vm_compute. reflexivity.
    + reflexivity.
Defined.

(** X19.  The date pattern does not stop at ten characters: every text of
    ten characters that passes the validator of published_date also
    passes it with a newline added at its end, a text of eleven
    characters. *)
Theorem date_with_trailing_newline_passes (d : string) :
  Regexp_date d = [] ->
  String.length d = 10%nat ->
  Regexp_date (d ++ newline) = [] /\ String.length (d ++ newline) = 11%nat.
Proof.
  unfold Regexp_date. intros Hpass Hlen.
  destruct (date_regex_match d) eqn:Hmatch; [clear Hpass | discriminate Hpass].
  destruct d as [| y1 [| y2 [| y3 [| y4 [| c5 [| m1 [| m2 [| c8 [| d1 [| d2 [| x rest]]]]]]]]]]];
    try discriminate Hlen.
  unfold date_regex_match in Hmatch.
  destruct c5 as [[] [] [] [] [] [] [] []]; try discriminate Hmatch.
  destruct c8 as [[] [] [] [] [] [] [] []]; try discriminate Hmatch.
  apply andb_prop in Hmatch as [Hdigits _].
  split; [| reflexivity].
  cbn [String.append newline]. unfold date_regex_match. now rewrite Hdigits.
Qed.

Lemma date_with_trailing_newline_passes_witness :
  Regexp_date ("2024-01-01" ++ newline) = []
  /\ String.length ("2024-01-01" ++ newline) = 11%nat.
Proof.
  apply (date_with_trailing_newline_passes "2024-01-01"); reflexivity.
Defined.

(* ===================================================================== *)
(** ** The keys a v1 bulk delete removes *)
(* ===================================================================== *)

Module BulkKeyFacts.



End BulkKeyFacts.


